(** * ScanIt: the verification list view and the report detail view

    A shallow embedding of the two page components of the repository,

    - [BlockchainExplorer] (the list view: fetch the owner's verification
      records, map them to display blocks, render the cards), and
    - [ReportDetails] (the detail view: fetch one record, render it with
      decorative random scores and word marks, export a text report),

    followed by the properties the specification states about them.

    Conventions.  A JavaScript string is the list of its UTF-16 code units;
    a JavaScript number that the code only carries around or compares with a
    literal is a rational, and where the code computes with numbers the
    result is rounded to the nearest double ([Double.round]); every hook setter is an update of the component's
    state record; every call into the browser or into a collaborator (the
    console, the toast surface, the router, the hosted data store, the
    clipboard, the download anchor) is an entry of an effect trace, in call
    order.  [Math.random] reads the next draw of an explicit source. *)

From Stdlib Require Import ZArith QArith Qround Qpower Lqa String Ascii DecimalString.
From stdpp Require Import base tactics option numbers list.

Local Open Scope nat_scope.

(* ===================================================================== *)
(** ** JavaScript strings *)
(* ===================================================================== *)

Module JS.

(** A string is its sequence of UTF-16 code units; [length] of the list is
    the [.length] property. *)
Definition jsstring : Type := list N.

(** A source literal (the literals of these two files are ASCII). *)
Definition lit (s : string) : jsstring :=
  map N_of_ascii (list_ascii_of_string s).

(** [String.fromCharCode(n)] *)
Definition fromCharCode (n : nat) : jsstring := [N.of_nat n].

(** [s.substring(a, b)]: the arguments are swapped when [a > b] and
    clamped to the length. *)
Definition substring (s : jsstring) (a b : nat) : jsstring :=
  let lo := Nat.min a b in
  let hi := Nat.max a b in
  take (hi - lo) (drop lo s).

(** [s.split(sep)] for a one-unit separator: the pieces between the
    separators, empty pieces included ([""] splits into one empty piece). *)
Fixpoint split (sep : N) (s : jsstring) : list jsstring :=
  match s with
  | [] => [[]]
  | c :: s' =>
      if N.eqb c sep then [] :: split sep s'
      else match split sep s' with
           | w :: ws => (c :: w) :: ws
           | [] => [[c]]
           end
  end.

(** Truthiness of a possibly absent string: [null], [undefined] and [""]
    are falsy. *)
Definition truthy (s : option jsstring) : bool :=
  match s with
  | Some (_ :: _) => true
  | _ => false
  end.

(** A possibly absent string interpolated in a template literal. *)
Definition interpolate (a : option jsstring) : jsstring :=
  match a with
  | Some s => s
  | None => lit "null"
  end.

(** A possibly absent string as a JSX child: [null] renders nothing. *)
Definition interpolate_child (a : option jsstring) : jsstring :=
  match a with
  | Some s => s
  | None => []
  end.

(** [needle] occurs in [hay] as a contiguous run of code units. *)
Definition occurs_in (needle hay : jsstring) : Prop :=
  exists pre post, hay = pre ++ needle ++ post.

Definition LF : N := 10%N.
Definition SPACE : N := 32%N.

End JS.

Import JS.

(* ===================================================================== *)
(** ** The host: what the runtime supplies *)
(* ===================================================================== *)

(** Number and date formatting belong to the JavaScript runtime and the
    user's locale; the components only call them. *)
Class Host := {
  (** [String(x)] / a number interpolated in a template literal *)
  Number_toString : Q -> jsstring;
  (** [x.toString(16)] *)
  Number_toString16 : Q -> jsstring;
  (** [new Date(s).toLocaleString()] *)
  toLocaleString : jsstring -> jsstring;
  (** [new Date(s).toLocaleDateString()] *)
  toLocaleDateString : jsstring -> jsstring
}.

(** The source of [Math.random()]: a sequence of draws and the position of
    the next one. *)
Record Rng := mkRng { draws : nat -> Q; cursor : nat }.

Definition Math_random (g : Rng) : Q * Rng :=
  (draws g (cursor g), mkRng (draws g) (S (cursor g))).

(** Every draw lies in the half-open unit interval. *)
Definition unit_draw (u : Q) : Prop := (0 <= u)%Q /\ (u < 1)%Q.

(** [l.map((x, index) => f(index, x))] where [f] may call [Math.random]:
    the elements are visited in order and the source is threaded through. *)
Fixpoint imapR {A B} (f : nat -> A -> Rng -> B * Rng)
         (index : nat) (l : list A) (g : Rng) : list B * Rng :=
  match l with
  | [] => ([], g)
  | x :: l' =>
      let '(y, g1) := f index x g in
      let '(ys, g2) := imapR f (S index) l' g1 in
      (y :: ys, g2)
  end.

(* ===================================================================== *)
(** ** Double-precision arithmetic *)
(* ===================================================================== *)

(** JavaScript numbers are IEEE 754 doubles.  A finite double is a rational;
    an arithmetic operation returns the exact result rounded to the nearest
    double, ties to even.  (Results of 2^1024 and more, which overflow, do
    not occur in these components.) *)
Module Double.

Definition pow2 (e : Z) : Q := Qpower 2 e.

(** The binade of a positive rational: the [e] with [2^e <= x < 2^(e+1)]. *)
Definition binade (x : Q) : Z :=
  let e := (Z.log2 (Qnum x) - Z.log2 (Zpos (Qden x)))%Z in
  if Qle_bool (pow2 e) x then e else (e - 1)%Z.

(** The nearest integer, the even one of two that are equally near. *)
Definition round_half_even (y : Q) : Z :=
  let f := Qfloor y in
  match Qcompare (y - inject_Z f) (1 # 2) with
  | Lt => f
  | Gt => (f + 1)%Z
  | Eq => if Z.even f then f else (f + 1)%Z
  end.

(** The distance between neighbouring doubles around a positive [x]: 52
    fraction bits in the binade of [x], and 2^-1074 below 2^-1022. *)
Definition ulp (x : Q) : Q := pow2 (Z.max (binade x) (-1022) - 52).

(** The double nearest to [x]. *)
Definition round (x : Q) : Q :=
  match Qcompare x 0 with
  | Eq => 0%Q
  | Gt => (inject_Z (round_half_even (x / ulp x)) * ulp x)%Q
  | Lt => (- (inject_Z (round_half_even (- x / ulp (- x))) * ulp (- x)))%Q
  end.

(** [x * y] on doubles. *)
Definition mul (x y : Q) : Q := round (x * y).

(** [x] is a double: rounding leaves it as it is. *)
Definition is_double (x : Q) : Prop := (round x == x)%Q.

End Double.

(** What [Math.random()] returns: a double of the half-open unit interval. *)
Definition double_draw (u : Q) : Prop := unit_draw u /\ Double.is_double u.

(* ===================================================================== *)
(** ** Data model *)
(* ===================================================================== *)

Module VerificationData.
Record t := mk {
   id : jsstring;
   content : jsstring;
   is_ai_generated : bool;
   confidence : Q;
   (** declared a string; the list view guards against its absence *)
   blockchain_hash : option jsstring;
   created_at : jsstring;
   user_id : jsstring
}.
End VerificationData.

Inductive Status := confirmed | pending.

Module Block.
Record t := mk {
   id : jsstring;
   hash : jsstring;
   timestamp : jsstring;
   verifier : jsstring;
   transactions : nat;
   status : Status
}.
End Block.

(** The authenticated identity supplied by [useAuth]. *)
Module User.
Record t := mk { id : jsstring }.
End User.

(** What the hosted data store answers: the client resolves to a
    [{ data, error }] pair, or the awaited call throws. *)
Record PostgrestError := mkError { code : jsstring; message : jsstring }.

Record Response (A : Type) := mkResponse {
  data : option A;
  error : option PostgrestError
}.
Arguments mkResponse {A}.
Arguments data {A}.
Arguments error {A}.

Inductive Settled (A : Type) :=
| Resolved (r : Response A)
| Thrown (exn : jsstring).
Arguments Resolved {A}.
Arguments Thrown {A}.

(** The payload logged next to a console message. *)
Inductive Logged :=
| LoggedError (e : PostgrestError)
| LoggedException (exn : jsstring).

Record Blob := mkBlob { parts : jsstring; type : jsstring }.

(** One entry per call that leaves the component. *)
Inductive Effect :=
| Select (table : jsstring) (eqs : list (jsstring * option jsstring))
         (order_desc : option jsstring) (single : bool)
| ConsoleError (msg : jsstring) (payload : Logged)
| Toast (title description : jsstring) (variant : option jsstring)
| Navigate (path : jsstring)
| ClipboardWrite (text : jsstring)
| CreateObjectURL (b : Blob)
| AnchorClick (href : Blob) (download : jsstring)
| RevokeObjectURL (b : Blob).

(** Neither a toast nor a navigation: nothing the user can see. *)
Definition silent (e : Effect) : bool :=
  match e with
  | Select _ _ _ _ | ConsoleError _ _ => true
  | _ => false
  end.

(* ===================================================================== *)
(** ** The list view: [BlockchainExplorer] *)
(* ===================================================================== *)

Module BlockchainExplorer.

(** The four [useState] cells. *)
Record State := mkState {
  searchTerm : jsstring;
  selectedBlock : option Block.t;
  userBlocks : list Block.t;
  loading : bool
}.

(** The initial values passed to [useState]. *)
Definition initial : State := mkState [] None [] true.

Definition setSearchTerm (s : jsstring) (st : State) : State :=
  mkState s (selectedBlock st) (userBlocks st) (loading st).

Definition setSelectedBlock (b : option Block.t) (st : State) : State :=
  mkState (searchTerm st) b (userBlocks st) (loading st).

Definition setUserBlocks (bs : list Block.t) (st : State) : State :=
  mkState (searchTerm st) (selectedBlock st) bs (loading st).

Definition setLoading (b : bool) (st : State) : State :=
  mkState (searchTerm st) (selectedBlock st) (userBlocks st) b.

(** The three verifier names the label cycles through. *)
Definition rotation : list jsstring :=
  [lit "ScanIt Node A"; lit "ScanIt Node B"; lit "ScanIt Node C"].

(** The placeholder hash: [`0x${Math.random().toString(16).substring(2, 42)}`]. *)
Definition placeholder_hash `{Host} (u : Q) : jsstring :=
  lit "0x" ++ substring (Number_toString16 u) 2 42.

(** The callback of [(data || []).map(...)]: one block per record.
    [Math.random] is called only when the record's hash is falsy. *)
Definition to_block `{Host} (index : nat) (verification : VerificationData.t)
           (g : Rng) : Block.t * Rng :=
  let '(h, g') :=
    match VerificationData.blockchain_hash verification with
    | Some (c :: s) => (c :: s, g)
    | _ => let '(u, g1) := Math_random g in (placeholder_hash u, g1)
    end in
  (Block.mk (VerificationData.id verification)
            h
            (VerificationData.created_at verification)
            (lit "ScanIt Node " ++ fromCharCode (65 + index mod 3))
            1
            confirmed,
   g').

(** The read issued for owner [u]:
    [from('verifications').select('*').eq('user_id', user.id)
       .order('created_at', { ascending: false })]. *)
Definition list_query (u : User.t) : Effect :=
  Select (lit "verifications") [(lit "user_id", Some (User.id u))]
         (Some (lit "created_at")) false.

(** [loadUserVerifications], with the answer of the awaited read as an
    argument.  After the [await] the function only calls setters, so the
    state it started from is the state it updates. *)
Definition loadUserVerifications `{Host} (user : option User.t)
           (answer : Settled (list VerificationData.t))
           (g : Rng) (st : State) : State * list Effect * Rng :=
  match user with
  | None => (st, [], g)
  | Some u =>
      match answer with
      | Resolved r =>
          match error r with
          | Some e =>
              (setLoading false st,
               [list_query u;
                ConsoleError (lit "Error loading verifications:") (LoggedError e)],
               g)
          | None =>
              let '(blocks, g') := imapR to_block 0 (default [] (data r)) g in
              (setLoading false (setUserBlocks blocks st), [list_query u], g')
          end
      | Thrown exn =>
          (setLoading false st,
           [list_query u;
            ConsoleError (lit "Error loading user verifications:")
                         (LoggedException exn)],
           g)
      end
  end.

(** The body of [useEffect(..., [user])]. *)
Definition on_user `{Host} (user : option User.t)
           (answer : Settled (list VerificationData.t))
           (g : Rng) (st : State) : State * list Effect * Rng :=
  match user with
  | Some _ => loadUserVerifications user answer g st
  | None => (setLoading false st, [], g)
  end.

(** *** Rendering *)

(** One card of the list. *)
Record Card := mkCard {
  key : jsstring;
  highlighted : bool;              (* [selectedBlock?.id === block.id] *)
  position : nat;                  (* drives the animation delay *)
  title : jsstring;                (* [Block #{block.id}] *)
  badge : Status;
  hash_text : jsstring;            (* [{block.hash.substring(0, 20)}...] *)
  time_text : jsstring;
  txns_text : jsstring
}.

Definition nat_toString `{Host} (n : nat) : jsstring :=
  Number_toString (inject_Z (Z.of_nat n)).

Definition card `{Host} (selected : option Block.t) (index : nat)
           (block : Block.t) : Card :=
  mkCard (Block.id block)
         (bool_decide (Block.id <$> selected = Some (Block.id block)))
         index
         (lit "Block #" ++ Block.id block)
         (Block.status block)
         (substring (Block.hash block) 0 20 ++ lit "...")
         (toLocaleString (Block.timestamp block))
         (nat_toString (Block.transactions block) ++ lit " txns").

(** The left column. *)
Inductive ListPanel :=
| LoadingCard
| LoginRequired
| NoVerificationsYet
| Cards (cs : list Card).

(** The right column: the selected block in full, or a hint. *)
Inductive DetailPanel :=
| BlockDetails (title : jsstring) (badge : Status) (hash time verifier : jsstring)
               (txns_text : jsstring) (cells : nat)
| Hint (text : jsstring).

Record View := mkView {
  search_value : jsstring;
  list_panel : ListPanel;
  detail_panel : DetailPanel
}.

Definition render_list `{Host} (user : option User.t) (st : State) : ListPanel :=
  if loading st then LoadingCard
  else match user with
       | None => LoginRequired
       | Some _ =>
           match userBlocks st with
           | [] => NoVerificationsYet
           | _ :: _ => Cards (imap (card (selectedBlock st)) (userBlocks st))
           end
       end.

Definition render_detail `{Host} (user : option User.t) (st : State) : DetailPanel :=
  match selectedBlock st with
  | Some b =>
      BlockDetails (lit "Block #" ++ Block.id b)
                   (Block.status b)
                   (Block.hash b)
                   (toLocaleString (Block.timestamp b))
                   (Block.verifier b)
                   (nat_toString (Block.transactions b) ++ lit " verifications")
                   (Block.transactions b)
  | None =>
      Hint (if loading st then lit "Loading verification details..."
            else match user with
                 | None => lit "Login to view your verification blocks"
                 | Some _ =>
                     match userBlocks st with
                     | [] => lit "Start scanning content to see your verification blocks here"
                     | _ :: _ => lit "Select a block to view detailed information"
                     end
                 end)
  end.

(** The component function: the markup as a function of the hook values. *)
Definition render `{Host} (user : option User.t) (st : State) : View :=
  mkView (searchTerm st) (render_list user st) (render_detail user st).

(** *** The component over time *)

(** A mounted component: the identity last supplied by [useAuth], the hook
    state, the random source and everything emitted so far. *)
Record Mounted := mkMounted {
  user : option User.t;
  state : State;
  rng : Rng;
  emitted : list Effect
}.

(** What can happen to it: the identity changes (the effect runs, and the
    read it issues settles with [answer]), the search field is edited, the
    card at a position is clicked. *)
Inductive Event :=
| UserChanged (u : option User.t) (answer : Settled (list VerificationData.t))
| SearchInput (s : jsstring)
| CardClick (index : nat).

Definition step `{Host} (m : Mounted) (ev : Event) : Mounted :=
  match ev with
  | UserChanged u answer =>
      let '(st, effs, g) := on_user u answer (rng m) (state m) in
      mkMounted u st g (emitted m ++ effs)
  | SearchInput s =>
      mkMounted (user m) (setSearchTerm s (state m)) (rng m) (emitted m)
  | CardClick index =>
      match render_list (user m) (state m) with
      | Cards _ =>
          match userBlocks (state m) !! index with
          | Some b =>
              mkMounted (user m) (setSelectedBlock (Some b) (state m))
                        (rng m) (emitted m)
          | None => m
          end
      | _ => m
      end
  end.

(** The component right after its first render, before any effect ran. *)
Definition mounted (g : Rng) : Mounted := mkMounted None initial g [].

Definition run `{Host} (m : Mounted) (evs : list Event) : Mounted :=
  foldl step m evs.

(** *** Reads in flight *)

(** [step] above takes a change of identity together with the answer to
    the read it issues: the case where nothing happens between the two.
    The machine below separates them: the effect runs up to its [await],
    and the answer arrives later, possibly after other events. *)

(** [loadUserVerifications] from its [await] on: what runs when the read
    settles.  The identity the closure captured is not looked at again,
    and the hook state is only written through the setters. *)
Definition resume `{Host} (answer : Settled (list VerificationData.t))
           (g : Rng) (st : State) : State * list Effect * Rng :=
  match answer with
  | Resolved r =>
      match error r with
      | Some e =>
          (setLoading false st,
           [ConsoleError (lit "Error loading verifications:") (LoggedError e)],
           g)
      | None =>
          let '(blocks, g') := imapR to_block 0 (default [] (data r)) g in
          (setLoading false (setUserBlocks blocks st), [], g')
      end
  | Thrown exn =>
      (setLoading false st,
       [ConsoleError (lit "Error loading user verifications:")
                     (LoggedException exn)],
       g)
  end.

(** The component with its reads in flight, each under the identity its
    closure captured, oldest first. *)
Record Live := mkLive {
  now : Mounted;
  inflight : list User.t
}.

(** [useAuth] supplies an identity (the effect runs: with an identity a read
    is issued, without one the loading flag is cleared); the read at
    position [k] of the ones in flight settles; the search field is edited;
    a card is clicked. *)
Inductive Signal :=
| Identity (u : option User.t)
| Settles (k : nat) (answer : Settled (list VerificationData.t))
| Edits (s : jsstring)
| Clicks (index : nat).

Definition live_step `{Host} (l : Live) (sig : Signal) : Live :=
  match sig with
  | Identity (Some u) =>
      mkLive (mkMounted (Some u) (state (now l)) (rng (now l))
                        (emitted (now l) ++ [list_query u]))
             (inflight l ++ [u])
  | Identity None =>
      mkLive (mkMounted None (setLoading false (state (now l))) (rng (now l))
                        (emitted (now l)))
             (inflight l)
  | Settles k answer =>
      match inflight l !! k with
      | Some _ =>
          let '(st, effs, g) := resume answer (rng (now l)) (state (now l)) in
          mkLive (mkMounted (user (now l)) st g (emitted (now l) ++ effs))
                 (delete k (inflight l))
      | None => l
      end
  | Edits s => mkLive (step (now l) (SearchInput s)) (inflight l)
  | Clicks index => mkLive (step (now l) (CardClick index)) (inflight l)
  end.

Definition live_mounted (g : Rng) : Live := mkLive (mounted g) [].

Definition live_run `{Host} (l : Live) (sigs : list Signal) : Live :=
  foldl live_step l sigs.


(** The signal can clear the loading flag: a sign-out, or a read settling. *)
Definition may_clear_loading (sig : Signal) : bool :=
  match sig with
  | Identity None | Settles _ _ => true
  | _ => false
  end.

(** *** What the search field can and cannot influence *)

Definition is_search (ev : Event) : bool :=
  match ev with
  | SearchInput _ => true
  | _ => false
  end.

(** A history with the edits of the search field left out. *)
Definition strip_search (evs : list Event) : list Event :=
  filter (fun ev => is_search ev = false) evs.

(** The component with the content of the search field blanked. *)
Definition forget_search (m : Mounted) : Mounted :=
  mkMounted (user m) (setSearchTerm [] (state m)) (rng m) (emitted m).

(** The two columns of the page: everything but the search field itself. *)
Definition panels `{Host} (m : Mounted) : ListPanel * DetailPanel :=
  (list_panel (render (user m) (state m)),
   detail_panel (render (user m) (state m))).

End BlockchainExplorer.

(* ===================================================================== *)
(** ** The detail view: [ReportDetails] *)
(* ===================================================================== *)

Module ReportDetails.

(** The two [useState] cells. *)
Record State := mkState {
  report : option VerificationData.t;
  loading : bool
}.

Definition initial : State := mkState None true.

Definition setReport (r : option VerificationData.t) (st : State) : State :=
  mkState r (loading st).

Definition setLoading (b : bool) (st : State) : State :=
  mkState (report st) b.

(** The read for one record:
    [from('verifications').select('*').eq('id', id)
       .eq('user_id', user?.id).single()]. *)
Definition detail_query (id : option jsstring) (user : option User.t) : Effect :=
  Select (lit "verifications")
         [(lit "id", id); (lit "user_id", User.id <$> user)]
         None true.

Definition load_failed_toast : Effect :=
  Toast (lit "Error") (lit "Failed to load report details")
        (Some (lit "destructive")).

(** [loadReportDetails], with the answer of the awaited read as an
    argument. *)
Definition loadReportDetails (id : option jsstring) (user : option User.t)
           (answer : Settled VerificationData.t) (st : State)
  : State * list Effect :=
  match answer with
  | Resolved r =>
      match error r with
      | Some e =>
          (setLoading false st,
           [detail_query id user;
            ConsoleError (lit "Error loading report:") (LoggedError e);
            load_failed_toast;
            Navigate (lit "/reports")])
      | None =>
          (setLoading false (setReport (data r) st), [detail_query id user])
      end
  | Thrown exn =>
      (setLoading false st,
       [detail_query id user;
        ConsoleError (lit "Error loading report details:") (LoggedException exn)])
  end.

(** The body of [useEffect(..., [id, user])]: [if (id && user)]. *)
Definition on_deps (id : option jsstring) (user : option User.t)
           (answer : Settled VerificationData.t) (st : State)
  : State * list Effect :=
  if truthy id && bool_decide (is_Some user)
  then loadReportDetails id user answer st
  else (st, []).

(** [copyHash] *)
Definition copyHash (st : State) : list Effect :=
  match report st with
  | Some r =>
      match VerificationData.blockchain_hash r with
      | Some (c :: s) =>
          [ClipboardWrite (c :: s);
           Toast (lit "Copied to clipboard")
                 (lit "Blockchain hash copied successfully") None]
      | _ => []
      end
  | None => []
  end.

Definition nl : jsstring := [LF].

Definition classification (r : VerificationData.t) : jsstring :=
  if VerificationData.is_ai_generated r
  then lit "AI-Generated" else lit "Human-Written".

(** The template literal of [downloadReport]. *)
Definition reportContent `{Host} (r : VerificationData.t) : jsstring :=
  nl ++
  lit "ScanIt Detailed Verification Report" ++ nl ++
  lit "==================================" ++ nl ++
  nl ++
  lit "Content Analysis:" ++ nl ++
  lit "- Content ID: " ++ VerificationData.id r ++ nl ++
  lit "- Analysis Date: " ++ toLocaleString (VerificationData.created_at r) ++ nl ++
  lit "- Blockchain Hash: " ++ interpolate (VerificationData.blockchain_hash r) ++ nl ++
  nl ++
  lit "Results:" ++ nl ++
  lit "- Classification: " ++ classification r ++ nl ++
  lit "- Confidence: " ++ Number_toString (VerificationData.confidence r) ++ lit "%" ++ nl ++
  lit "- Content Length: " ++
    Number_toString (inject_Z (Z.of_nat (length (VerificationData.content r)))) ++
    lit " characters" ++ nl ++
  nl ++
  lit "Content:" ++ nl ++
  VerificationData.content r ++ nl ++
  nl.

Definition download_name (r : VerificationData.t) : jsstring :=
  lit "scanit-report-" ++ VerificationData.id r ++ lit ".txt".

(** [downloadReport]: build the text, hand it to the browser through a
    temporary anchor, confirm with a toast. *)
Definition downloadReport `{Host} (st : State) : list Effect :=
  match report st with
  | None => []
  | Some r =>
      let blob := mkBlob (reportContent r) (lit "text/plain") in
      [CreateObjectURL blob;
       AnchorClick blob (download_name r);
       RevokeObjectURL blob;
       Toast (lit "Report Downloaded")
             (lit "Detailed report has been downloaded successfully") None]
  end.

(** *** Rendering *)

(** A CSS [width] given as a percentage of the containing block. *)
Inductive CssWidth := Percent (p : Q).

(** The width the browser lays out for a percentage, in a containing block
    of width [container]. *)
Definition used_width (container : Q) (w : CssWidth) : Q :=
  match w with
  | Percent p => (container * p / 100)%Q
  end.

(** [Math.floor(Math.random() * 30) + 65]: the product is a double
    product; the floor and the sum of two small integers are exact. *)
Definition detectGPT_score (u : Q) : Z := (Qfloor (Double.mul u 30) + 65)%Z.

(** [Math.floor(Math.random() * 25) + 70] *)
Definition fastDetectGPT_score (u : Q) : Z := (Qfloor (Double.mul u 25) + 70)%Z.

(** [Math.random() > 0.7].  The literal is the double nearest to 7/10, just
    below it; no double lies between the two, so on doubles the comparison
    with 7/10 gives the same answer. *)
Definition shouldHighlight (u : Q) : bool := negb (Qle_bool u (7 # 10)).

Definition suspect_class : jsstring :=
  lit "bg-destructive/20 px-1 rounded border border-destructive/30".

(** One [<span>] of the highlighted content. *)
Record Span := mkSpan {
  text : jsstring;                 (* the word followed by a space *)
  className : jsstring
}.

Definition suspect (s : Span) : bool := bool_decide (className s = suspect_class).

(** The [<span>] of one word, given its draw: the class is the suspect one
    when [shouldHighlight && report.is_ai_generated], and empty otherwise. *)
Definition word_span (is_ai : bool) (word : jsstring) (u : Q) : Span :=
  mkSpan (word ++ lit " ")
         (if shouldHighlight u && is_ai then suspect_class else []).

(** The callback of [paragraph.split(' ').map(...)]: one draw per word. *)
Definition render_word (is_ai : bool) (wordIndex : nat) (word : jsstring)
           (g : Rng) : Span * Rng :=
  let '(u, g1) := Math_random g in
  (word_span is_ai word u, g1).

(** The callback of [report.content.split('\n').map(...)]. *)
Definition render_paragraph (is_ai : bool) (index : nat) (paragraph : jsstring)
           (g : Rng) : list Span * Rng :=
  imapR (render_word is_ai) 0 (split SPACE paragraph) g.

(** The markup of a loaded report, reduced to what varies. *)
Record ReportMarkup := mkMarkup {
  breadcrumb : jsstring;
  header_date : jsstring;
  badge_label : jsstring;
  badge_destructive : bool;
  confidence_label : jsstring;
  bar_width : CssWidth;
  bar_destructive : bool;
  document_id : jsstring;
  document_time : jsstring;
  hash_line : jsstring;
  detectGPT : Z;
  fastDetectGPT : Z;
  paragraphs : list (list Span)
}.

Inductive View :=
| LoadingView
| NotFoundView
| ReportView (m : ReportMarkup).

(** The markup of the third [return]: the draws are taken in source order,
    the two scores first, then one per word. *)
Definition render_report `{Host} (r : VerificationData.t) (g : Rng)
  : ReportMarkup * Rng :=
  let '(u1, g1) := Math_random g in
  let '(u2, g2) := Math_random g1 in
  let '(ps, g3) :=
    imapR (render_paragraph (VerificationData.is_ai_generated r)) 0
          (split LF (VerificationData.content r)) g2 in
  (mkMarkup
     (lit "My Reports > " ++ substring (VerificationData.id r) 0 8 ++ lit "...")
     (toLocaleDateString (VerificationData.created_at r))
     (classification r)
     (VerificationData.is_ai_generated r)
     (Number_toString (VerificationData.confidence r) ++ lit "%")
     (Percent (VerificationData.confidence r))
     (VerificationData.is_ai_generated r)
     (lit "Document ID: " ++ substring (VerificationData.id r) 0 8 ++ lit "...")
     (toLocaleString (VerificationData.created_at r))
     (interpolate_child (VerificationData.blockchain_hash r))
     (detectGPT_score u1)
     (fastDetectGPT_score u2)
     ps,
   g3).

(** The component function. *)
Definition render `{Host} (st : State) (g : Rng) : View * Rng :=
  if loading st then (LoadingView, g)
  else match report st with
       | None => (NotFoundView, g)
       | Some r => let '(m, g') := render_report r g in (ReportView m, g')
       end.

(** *** The component over time *)

Record Mounted := mkMounted {
  id : option jsstring;            (* [useParams] *)
  user : option User.t;            (* [useAuth] *)
  state : State;
  emitted : list Effect
}.

(** The dependencies of the effect change (the first time at mount); one
    of the buttons of the current markup is clicked. *)
Inductive Event :=
| DepsChanged (id : option jsstring) (user : option User.t)
              (answer : Settled VerificationData.t)
| ClickBack
| ClickDownload
| ClickCopy.

(** Which markup is on screen decides which buttons exist. *)
Inductive Screen := OnLoading | OnNotFound | OnReport.

Definition screen (st : State) : Screen :=
  if loading st then OnLoading
  else match report st with None => OnNotFound | Some _ => OnReport end.

Definition step `{Host} (m : Mounted) (ev : Event) : Mounted :=
  match ev with
  | DepsChanged i u answer =>
      let '(st, effs) := on_deps i u answer (state m) in
      mkMounted i u st (emitted m ++ effs)
  | ClickBack =>
      match screen (state m) with
      | OnLoading => m
      | _ => mkMounted (id m) (user m) (state m)
                       (emitted m ++ [Navigate (lit "/reports")])
      end
  | ClickDownload =>
      match screen (state m) with
      | OnReport => mkMounted (id m) (user m) (state m)
                              (emitted m ++ downloadReport (state m))
      | _ => m
      end
  | ClickCopy =>
      match screen (state m) with
      | OnReport => mkMounted (id m) (user m) (state m)
                              (emitted m ++ copyHash (state m))
      | _ => m
      end
  end.

Definition mounted : Mounted := mkMounted None None initial [].

Definition run `{Host} (m : Mounted) (evs : list Event) : Mounted :=
  foldl step m evs.

(** *** Reads in flight *)

(** [step] above takes a change of the dependencies together with the
    answer to the read it issues.  The machine below separates the two. *)

(** [loadReportDetails] from its [await] on. *)
Definition resume (answer : Settled VerificationData.t) (st : State)
  : State * list Effect :=
  match answer with
  | Resolved r =>
      match error r with
      | Some e =>
          (setLoading false st,
           [ConsoleError (lit "Error loading report:") (LoggedError e);
            load_failed_toast;
            Navigate (lit "/reports")])
      | None => (setLoading false (setReport (data r) st), [])
      end
  | Thrown exn =>
      (setLoading false st,
       [ConsoleError (lit "Error loading report details:") (LoggedException exn)])
  end.

(** The component and the number of its reads in flight. *)
Record Live := mkLive {
  now : Mounted;
  inflight : nat
}.

(** The dependencies of the effect change (with both identities present a
    read is issued); a read in flight settles; a button is clicked. *)
Inductive Signal :=
| Deps (id : option jsstring) (user : option User.t)
| Settles (answer : Settled VerificationData.t)
| Clicks (button : Event).

Definition live_step `{Host} (l : Live) (sig : Signal) : Live :=
  match sig with
  | Deps i u =>
      if truthy i && bool_decide (is_Some u)
      then mkLive (mkMounted i u (state (now l))
                             (emitted (now l) ++ [detail_query i u]))
                  (S (inflight l))
      else mkLive (mkMounted i u (state (now l)) (emitted (now l))) (inflight l)
  | Settles answer =>
      match inflight l with
      | O => l
      | S n =>
          let '(st, effs) := resume answer (state (now l)) in
          mkLive (mkMounted (id (now l)) (user (now l)) st
                            (emitted (now l) ++ effs))
                 n
      end
  | Clicks button =>
      match button with
      | DepsChanged _ _ _ => l
      | _ => mkLive (step (now l) button) (inflight l)
      end
  end.

Definition live_mounted : Live := mkLive mounted 0.

Definition live_run `{Host} (l : Live) (sigs : list Signal) : Live :=
  foldl live_step l sigs.

Definition is_settle (sig : Signal) : bool :=
  match sig with
  | Settles _ => true
  | _ => false
  end.

(** *** Observations on histories *)

(** The event leaves the effect's guard [id && user] false: it is a click,
    or a change of the dependencies after which the route's record identity
    or the authenticated identity is still missing. *)
Definition keeps_absent (ev : Event) : bool :=
  match ev with
  | DepsChanged i u _ => negb (truthy i && bool_decide (is_Some u))
  | _ => true
  end.

(** What reaches the user: toasts and navigations. *)
Definition visible (effs : list Effect) : list Effect :=
  filter (fun e => silent e = false) effs.

End ReportDetails.

(* ===================================================================== *)
(** ** The data store, as the detail view addresses it *)
(* ===================================================================== *)

Module DataStore.

(** Modelled from the spec: the hosted data store and its client are
    outside src/.  The specification gives the store a query capability
    [fetch(table, filter, order) -> rows | error] and has the detail view
    filter on the record identity and the owner identity together. *)
Definition matches (id owner : option jsstring) (r : VerificationData.t) : Prop :=
  Some (VerificationData.id r) = id /\ Some (VerificationData.user_id r) = owner.

#[global] Instance matches_dec id owner r : Decision (matches id owner r).
Proof. unfold matches. apply _. Defined.

(** Modelled from the spec: the rows of the table that pass the filter
    (record identity and owner identity). *)
Definition rows_for (table : list VerificationData.t)
           (id owner : option jsstring) : list VerificationData.t :=
  filter (matches id owner) table.

(** Modelled from the spec: the error the client reports when the filter
    does not select exactly one row. *)
Definition no_single_row : PostgrestError :=
  mkError (lit "PGRST116")
          (lit "JSON object requested, multiple (or no) rows returned").

(** Modelled from the spec: the client's [.single()], absent from src/.
    The view "fetches exactly one record matching both", and a record not
    found reaches it as a fetch error: the row is in [data] when exactly one
    row passes the filter, and an [error] (with no [data]) is reported
    otherwise. *)
Definition single (rows : list VerificationData.t) : Response VerificationData.t :=
  match rows with
  | [r] => mkResponse (Some r) None
  | _ => mkResponse None (Some no_single_row)
  end.

(** Modelled from the spec: the answer to the detail view's read against
    [table]. *)
Definition fetch_one (table : list VerificationData.t)
           (id : option jsstring) (user : option User.t)
  : Settled VerificationData.t :=
  Resolved (single (rows_for table id (User.id <$> user))).

(** Modelled from the spec: "not found" is a record that is absent or
    owned by a different identity. *)
Definition not_found (table : list VerificationData.t)
           (id : option jsstring) (user : option User.t) : Prop :=
  rows_for table id (User.id <$> user) = [].

End DataStore.

(** A read that did not deliver rows: the client reported an error, or the
    awaited call threw. *)
Definition failure {A} (answer : Settled A) : option Logged :=
  match answer with
  | Resolved r => LoggedError <$> error r
  | Thrown exn => Some (LoggedException exn)
  end.

(* ===================================================================== *)
(** ** A host to run the components on concrete inputs *)
(* ===================================================================== *)

Module TestHost.

Definition decimal (z : Z) : jsstring :=
  lit (DecimalString.NilZero.string_of_int (Z.to_int z)).

(** Integers print in decimal, other rationals as a fraction; dates print
    as they are stored. *)
Definition show (q : Q) : jsstring :=
  if Pos.eqb (Qden q) 1 then decimal (Qnum q)
  else decimal (Qnum q) ++ lit "/" ++ decimal (Zpos (Qden q)).

Definition host : Host := {|
  Number_toString := show;
  Number_toString16 := fun _ => lit "0.8f3a";
  toLocaleString := fun s => s;
  toLocaleDateString := fun s => take 10 s
|}.

(** A source whose draws are all [u]. *)
Definition constant (u : Q) : Rng := mkRng (fun _ => u) 0.

Definition alice : User.t := User.mk (lit "U").

(** The two records of the specification's example, newest first. *)
Definition a1 : VerificationData.t :=
  VerificationData.mk (lit "a1") (lit "first line") true 87
                      (Some (lit "0xabc")) (lit "2024-01-02") (lit "U").

Definition a2 : VerificationData.t :=
  VerificationData.mk (lit "a2") (lit "second") false 40
                      None (lit "2024-01-01") (lit "U").

Definition ok {A} (rows : A) : Settled A := Resolved (mkResponse (Some rows) None).

Definition refused {A} : Settled A :=
  Resolved (mkResponse None (Some (mkError (lit "500") (lit "unavailable")))).

End TestHost.

(* ===================================================================== *)
(** ** Observations on histories, traces and content *)
(* ===================================================================== *)

Module Observe.

(** The constants of a block built by the list view: one transaction,
    status confirmed, a verifier out of the rotation, a hash that is not
    empty. *)
Definition decorated (b : Block.t) : Prop :=
  Block.transactions b = 1 /\
  Block.status b = confirmed /\
  Block.verifier b ∈ BlockchainExplorer.rotation /\
  Block.hash b <> [].

Definition is_card_click (ev : BlockchainExplorer.Event) : bool :=
  match ev with
  | BlockchainExplorer.CardClick _ => true
  | _ => false
  end.

Definition is_user_changed (ev : BlockchainExplorer.Event) : bool :=
  match ev with
  | BlockchainExplorer.UserChanged _ _ => true
  | _ => false
  end.

(** The effect ran with an identity: a read was issued. *)
Definition identified (ev : BlockchainExplorer.Event) : bool :=
  match ev with
  | BlockchainExplorer.UserChanged (Some _) _ => true
  | _ => false
  end.

(** The effect ran with an identity and its read failed. *)
Definition failed_read (ev : BlockchainExplorer.Event) : bool :=
  match ev with
  | BlockchainExplorer.UserChanged (Some _) answer =>
      bool_decide (is_Some (failure answer))
  | _ => false
  end.

Definition is_read (e : Effect) : bool :=
  match e with
  | Select _ _ _ _ => true
  | _ => false
  end.

Definition is_log (e : Effect) : bool :=
  match e with
  | ConsoleError _ _ => true
  | _ => false
  end.

Definition is_created (e : Effect) : bool :=
  match e with
  | CreateObjectURL _ => true
  | _ => false
  end.

Definition is_revoked (e : Effect) : bool :=
  match e with
  | RevokeObjectURL _ => true
  | _ => false
  end.

Definition count {A} (p : A -> bool) (l : list A) : nat :=
  length (filter (fun x => p x = true) l).

(** The records whose hash is falsy: the ones that get a fabricated hash. *)
Definition hashless (v : VerificationData.t) : bool :=
  negb (truthy (VerificationData.blockchain_hash v)).

(** How often a code unit occurs in a string. *)
Definition occurrences (c : N) (s : jsstring) : nat :=
  length (filter (fun x => x = c) s).

Definition is_deps (ev : ReportDetails.Event) : bool :=
  match ev with
  | ReportDetails.DepsChanged _ _ _ => true
  | _ => false
  end.

(** Some read of the history, issued with both identities present, settled
    with record [r] and no error. *)
Definition delivered (r : VerificationData.t)
           (evs : list ReportDetails.Event) : Prop :=
  exists i u,
    truthy i && bool_decide (is_Some u) = true /\
    ReportDetails.DepsChanged i u (Resolved (mkResponse (Some r) None)) ∈ evs.

(** What an effect of the detail view may carry out of the component: a
    text on the clipboard, a file handed to the browser. *)
Definition exports_only_delivered `{Host} (evs : list ReportDetails.Event)
           (e : Effect) : Prop :=
  match e with
  | ClipboardWrite t =>
      t <> [] /\
      exists r, delivered r evs /\ VerificationData.blockchain_hash r = Some t
  | AnchorClick b name =>
      exists r, delivered r evs /\
                b = mkBlob (ReportDetails.reportContent r) (lit "text/plain") /\
                name = ReportDetails.download_name r
  | Navigate p => p = lit "/reports"
  | _ => True
  end.

(** White space: tab, line feed, vertical tab, form feed, carriage return,
    space, no-break space. *)
Definition is_whitespace (c : N) : bool :=
  bool_decide (c ∈ [9; 10; 11; 12; 13; 32; 160]%N).

(** The pieces of a string between the code units that satisfy [sep]. *)
Fixpoint split_where (sep : N -> bool) (s : jsstring) : list jsstring :=
  match s with
  | [] => [[]]
  | c :: s' =>
      if sep c then [] :: split_where sep s'
      else match split_where sep s' with
           | w :: ws => (c :: w) :: ws
           | [] => [[c]]
           end
  end.

(** Following the specification's words, for comparison with the code: the
    words of a content, "split on whitespace within a paragraph and on
    newlines between paragraphs". *)
Definition whitespace_words (content : jsstring) : list jsstring :=
  concat (split_where is_whitespace <$> split LF content).

(** A draw whose product with [c] is near [j + 1/2]: a multiple of 2^-10. *)
Definition midpoint_draw (c j : Z) : Q :=
  (inject_Z (Qfloor ((inject_Z j + (1 # 2)) * 1024 / inject_Z c)) / 1024)%Q.

(** [midpoint_draw c j] is a draw and [Math.floor] of its product with [c]
    is [j]. *)
Definition midpoint_check (c j : Z) : bool :=
  let u := midpoint_draw c j in
  Qle_bool 0 u && negb (Qle_bool 1 u) && Qeq_bool (Double.round u) u
  && Z.eqb (Qfloor (Double.mul u (inject_Z c))) j.

End Observe.

(* ===================================================================== *)
(** ** Mapping with a threaded random source *)
(* ===================================================================== *)

Section ImapR.
Context {A B : Type} (f : nat -> A -> Rng -> B * Rng).

Lemma imapR_cons index x l g :
  imapR f index (x :: l) g =
  ((f index x g).1 :: (imapR f (S index) l (f index x g).2).1,
   (imapR f (S index) l (f index x g).2).2).
Proof.
  simpl. destruct (f index x g) as [y g1]. simpl.
  by destruct (imapR f (S index) l g1).
Qed.

Lemma imapR_length index l g : length (imapR f index l g).1 = length l.
Proof.
  revert index g. induction l as [|x l IH]; intros index g; [done|].
  rewrite imapR_cons. simpl. by rewrite IH.
Qed.

(** A component of the result that does not depend on the source is an
    ordinary indexed map. *)
Lemma imapR_pure {C} (h : B -> C) (k : nat -> A -> C) index l g :
  (forall i x g', h (f i x g').1 = k i x) ->
  h <$> (imapR f index l g).1 = imap (fun j => k (index + j)) l.
Proof.
  intros Hk. revert index g.
  induction l as [|x l IH]; intros index g; [done|].
  rewrite imapR_cons. simpl. f_equal.
  - by rewrite Hk, Nat.add_0_r.
  - rewrite IH. apply imap_ext. intros j y _. simpl. f_equal. lia.
Qed.

(** When every call draws exactly once, the [j]-th element is computed from
    the [j]-th draw after the cursor, and the cursor ends [length l]
    further. *)
Lemma imapR_one_draw (k : nat -> A -> Q -> B) index l g :
  (forall i x g', f i x g' = (k i x (draws g' (cursor g')),
                              mkRng (draws g') (S (cursor g')))) ->
  imapR f index l g =
  (imap (fun j x => k (index + j) x (draws g (cursor g + j))) l,
   mkRng (draws g) (cursor g + length l)).
Proof.
  intros Hk. revert index g.
  induction l as [|x l IH]; intros index g.
  - simpl. destruct g. simpl. by rewrite Nat.add_0_r.
  - rewrite imapR_cons, Hk. simpl. rewrite IH. simpl. f_equal.
    + rewrite !Nat.add_0_r. f_equal. apply imap_ext. intros j y _. simpl.
      f_equal; [lia | f_equal; lia].
    + f_equal. lia.
Qed.

End ImapR.

(* ===================================================================== *)
(** ** The list view *)
(* ===================================================================== *)

Section ListView.
Import BlockchainExplorer.
Context `{Host}.

Lemma to_block_id index v g :
  Block.id (to_block index v g).1 = VerificationData.id v.
Proof. unfold to_block. by destruct (VerificationData.blockchain_hash v) as [[|]|]. Qed.

Lemma to_block_timestamp index v g :
  Block.timestamp (to_block index v g).1 = VerificationData.created_at v.
Proof. unfold to_block. by destruct (VerificationData.blockchain_hash v) as [[|]|]. Qed.

Lemma to_block_verifier index v g :
  Block.verifier (to_block index v g).1 =
  lit "ScanIt Node " ++ fromCharCode (65 + index mod 3).
Proof. unfold to_block. by destruct (VerificationData.blockchain_hash v) as [[|]|]. Qed.

(** A successful read stores the projection of its rows, whatever was
    stored before. *)
Lemma loadUserVerifications_ok u rows g st :
  loadUserVerifications (Some u) (Resolved (mkResponse rows None)) g st =
  (mkState (searchTerm st) (selectedBlock st)
           (imapR to_block 0 (default [] rows) g).1 false,
   [list_query u],
   (imapR to_block 0 (default [] rows) g).2).
Proof.
  unfold loadUserVerifications. simpl.
  by destruct (imapR to_block 0 (default [] rows) g).
Qed.

(** A failed read only switches the loading flag off and logs. *)
Lemma loadUserVerifications_failed u answer g st payload :
  failure answer = Some payload ->
  exists msg,
    loadUserVerifications (Some u) answer g st =
    (setLoading false st, [list_query u; ConsoleError msg payload], g).
Proof.
  destruct answer as [[d [e|]]|exn]; simpl; intros Hf; simplify_eq; eauto.
Qed.

End ListView.

Section ListViewClaims.
Import BlockchainExplorer.
Context `{Host}.

(** Position [k] of the rotation is the label the callback builds at any
    index congruent to [k]. *)
Lemma rotation_at index :
  rotation !! (index mod 3) =
  Some (lit "ScanIt Node " ++ fromCharCode (65 + index mod 3)).
Proof.
  assert (index mod 3 < 3) as Hlt by (apply Nat.mod_upper_bound; lia).
  destruct (index mod 3) as [|[|[|k]]]; try reflexivity. lia.
Qed.

(** Only the effect of a successful read writes the block list. *)
Lemma step_userBlocks m ev :
  userBlocks (state (step m ev)) = userBlocks (state m) \/
  exists u rows,
    ev = UserChanged (Some u) (Resolved (mkResponse rows None)) /\
    userBlocks (state (step m ev)) =
    (imapR to_block 0 (default [] rows) (rng m)).1.
Proof.
  destruct ev as [[u|] answer|s|index]; simpl.
  - destruct answer as [[rows [e|]]|exn]; simpl; auto.
    right. exists u, rows. split; [done|].
    by destruct (imapR to_block 0 (default [] rows) (rng m)).
  - auto.
  - auto.
  - left. destruct (render_list (user m) (state m)); try done.
    by destruct (userBlocks (state m) !! index).
Qed.

(** When the answer arrives while nothing else has happened since the
    read was issued: the stored list is the projection of the rows. *)
Lemma loadUserVerifications_projects_rows
        (u : User.t) (rows : option (list VerificationData.t))
        (g : Rng) (st : State) :
  let records := default [] rows in
  let result :=
    loadUserVerifications (Some u) (Resolved (mkResponse rows None)) g st in
  let blocks := userBlocks result.1.1 in
  result.1.2 =
    [Select (lit "verifications") [(lit "user_id", Some (User.id u))]
            (Some (lit "created_at")) false] /\
  length blocks = length records /\
  Block.id <$> blocks = VerificationData.id <$> records /\
  Block.timestamp <$> blocks = VerificationData.created_at <$> records /\
  (forall i,
      match blocks !! i, records !! i with
      | Some b, Some v =>
          Block.id b = VerificationData.id v /\
          Block.timestamp b = VerificationData.created_at v
      | None, None => True
      | _, _ => False
      end) /\
  (forall st0,
      userBlocks
        (loadUserVerifications (Some u) (Resolved (mkResponse rows None)) g st0).1.1
      = blocks) /\
  (forall m ev,
      userBlocks (state (step m ev)) = userBlocks (state m) \/
      exists u' rows',
        ev = UserChanged (Some u') (Resolved (mkResponse rows' None)) /\
        userBlocks (state (step m ev)) =
        (imapR to_block 0 (default [] rows') (rng m)).1).
Proof.
  intros records result blocks. subst records result blocks.
  rewrite loadUserVerifications_ok. cbn [fst snd userBlocks].
  set (records := default [] rows).
  assert (Block.id <$> (imapR to_block 0 records g).1
          = VerificationData.id <$> records) as Hid.
  { rewrite (imapR_pure _ Block.id (fun _ v => VerificationData.id v)).
    - apply imap_const.
    - intros. apply to_block_id. }
  assert (Block.timestamp <$> (imapR to_block 0 records g).1
          = VerificationData.created_at <$> records) as Hts.
  { rewrite (imapR_pure _ Block.timestamp
                        (fun _ v => VerificationData.created_at v)).
    - apply imap_const.
    - intros. apply to_block_timestamp. }
  split_and!; try done.
  - apply imapR_length.
  - intros i.
    pose proof (f_equal (fun l => l !! i) Hid) as Hi.
    pose proof (f_equal (fun l => l !! i) Hts) as Ht.
    simpl in Hi, Ht. rewrite !list_lookup_fmap in Hi, Ht.
    destruct ((imapR to_block 0 records g).1 !! i) as [b|],
             (records !! i) as [v|]; simpl in *; simplify_eq; done.
  - intros st0. by rewrite loadUserVerifications_ok.
  - apply step_userBlocks.
Qed.

(** C2.  For every fetched record list, the verifier label of the block at
    0-indexed position [i] is entry [i mod 3] of a fixed rotation of three
    verifier names; for two records the labels are entries 0 and 1, in list
    order. *)
Theorem C2_verifier_label_rotation
        (u : User.t) (rows : option (list VerificationData.t))
        (g : Rng) (st : State) :
  let blocks :=
    userBlocks
      (loadUserVerifications (Some u) (Resolved (mkResponse rows None)) g st).1.1 in
  length rotation = 3 /\
  (forall i b, blocks !! i = Some b ->
               rotation !! (i mod 3) = Some (Block.verifier b)) /\
  (forall r1 r2, rows = Some [r1; r2] ->
                 Some <$> (Block.verifier <$> blocks) =
                 [rotation !! 0; rotation !! 1]).
Proof.
  intros blocks. subst blocks. rewrite loadUserVerifications_ok.
  cbn [fst snd userBlocks].
  assert (forall l,
             Block.verifier <$> (imapR to_block 0 l g).1 =
             imap (fun j _ => lit "ScanIt Node " ++ fromCharCode (65 + j mod 3)) l)
    as Hv.
  { intros l.
    apply (imapR_pure _ Block.verifier
             (fun j _ => lit "ScanIt Node " ++ fromCharCode (65 + j mod 3))).
    intros. apply to_block_verifier. }
  split_and!; [done | |].
  - intros i b Hb.
    pose proof (f_equal (fun l => l !! i) (Hv (default [] rows))) as Hi.
    cbn beta in Hi. rewrite list_lookup_fmap, Hb, list_lookup_imap in Hi.
    rewrite rotation_at.
    destruct (default [] rows !! i); cbn [fmap option_fmap option_map] in Hi;
      [by rewrite Hi | done].
  - intros r1 r2 ->. cbn [default]. by rewrite Hv.
Qed.

End ListViewClaims.

(** The specification's example: records a1 and a2 get the first two
    labels of the rotation. *)
Lemma C2_verifier_label_rotation_witness :
  let blocks :=
    BlockchainExplorer.userBlocks
      (BlockchainExplorer.loadUserVerifications (H := TestHost.host)
         (Some TestHost.alice) (TestHost.ok [TestHost.a1; TestHost.a2])
         (TestHost.constant (1 # 2)) BlockchainExplorer.initial).1.1 in
  Block.id <$> blocks = [lit "a1"; lit "a2"] /\
  Block.verifier <$> blocks = [lit "ScanIt Node A"; lit "ScanIt Node B"] /\
  exists b, blocks !! 1 = Some b /\
            BlockchainExplorer.rotation !! (1 mod 3) = Some (Block.verifier b).
Proof.
  split_and!; [reflexivity | reflexivity |].
  eexists. split; [reflexivity|].
  pose proof (C2_verifier_label_rotation (H := TestHost.host)
                TestHost.alice (Some [TestHost.a1; TestHost.a2])
                (TestHost.constant (1 # 2)) BlockchainExplorer.initial) as HC2.
  destruct HC2 as (_ & Hall & _).
  apply (Hall 1). reflexivity.
Defined.

Section ListViewSearch.
Import BlockchainExplorer.
Context `{Host}.

Lemma render_list_setSearchTerm u s st :
  render_list u (setSearchTerm s st) = render_list u st.
Proof. reflexivity. Qed.

Lemma render_detail_setSearchTerm u s st :
  render_detail u (setSearchTerm s st) = render_detail u st.
Proof. reflexivity. Qed.

Lemma panels_forget_search m : panels (forget_search m) = panels m.
Proof. reflexivity. Qed.

Lemma on_user_setSearchTerm u answer g s st :
  on_user u answer g (setSearchTerm s st) =
  (setSearchTerm s (on_user u answer g st).1.1,
   (on_user u answer g st).1.2,
   (on_user u answer g st).2).
Proof.
  destruct u as [u|]; [|done].
  destruct answer as [[rows [e|]]|exn]; simpl; try done.
  by destruct (imapR to_block 0 (default [] rows) g).
Qed.

(** An edit of the search field is invisible once the field is blanked. *)
Lemma step_search_forgotten m ev :
  is_search ev = true -> forget_search (step m ev) = forget_search m.
Proof. by destruct ev. Qed.

(** Every other event commutes with blanking the field. *)
Lemma step_forget_search m ev :
  is_search ev = false -> step (forget_search m) ev = forget_search (step m ev).
Proof.
  destruct ev as [u answer|s|index]; intros Hev; [|done|].
  - unfold step, forget_search. cbn [state rng user emitted].
    rewrite on_user_setSearchTerm.
    by destruct (on_user u answer (rng m) (state m)) as [[st effs] g].
  - unfold step, forget_search. cbn [state rng user emitted].
    rewrite render_list_setSearchTerm.
    destruct (render_list (user m) (state m)); try done.
    cbn [setSearchTerm userBlocks].
    by destruct (userBlocks (state m) !! index).
Qed.

Lemma run_forget_search evs : forall m,
  forget_search (run m evs) = run (forget_search m) (strip_search evs).
Proof.
  unfold run, strip_search.
  induction evs as [|ev evs IH]; intros m; [done|].
  cbn [foldl]. rewrite IH.
  destruct (is_search ev) eqn:Hev.
  - rewrite filter_cons_False by (rewrite Hev; done).
    by rewrite step_search_forgotten.
  - rewrite filter_cons_True by done.
    cbn [foldl]. by rewrite step_forget_search.
Qed.

(** C8.  The search term is captured in state and shown in the field, and
    that is all: for a fixed stored block list (and selection, loading flag
    and identity) the two columns rendered are the same for every value of
    the search term; and two histories of the component that differ only in
    what was typed into the search field, and when, render the same
    columns and emit the same effects. *)
Theorem C8_search_term_noninterference
        (u : option User.t) (st : State) (s1 s2 : jsstring)
        (m : Mounted) (evs1 evs2 : list Event) :
  searchTerm (state (step m (SearchInput s1))) = s1 /\
  search_value (render u (setSearchTerm s1 st)) = s1 /\
  list_panel (render u (setSearchTerm s1 st)) =
    list_panel (render u (setSearchTerm s2 st)) /\
  detail_panel (render u (setSearchTerm s1 st)) =
    detail_panel (render u (setSearchTerm s2 st)) /\
  (strip_search evs1 = strip_search evs2 ->
   panels (run m evs1) = panels (run m evs2) /\
   userBlocks (state (run m evs1)) = userBlocks (state (run m evs2)) /\
   emitted (run m evs1) = emitted (run m evs2)).
Proof.
  split_and!; try reflexivity.
  intros Hevs.
  assert (forget_search (run m evs1) = forget_search (run m evs2)) as Heq
      by (by rewrite !run_forget_search, Hevs).
  split_and!.
  - by rewrite <- (panels_forget_search (run m evs1)), Heq.
  - by apply (f_equal (fun m => userBlocks (state m))) in Heq.
  - by apply (f_equal emitted) in Heq.
Qed.

End ListViewSearch.

(** Typing "a1" before the records arrive, or " node" after, changes
    nothing in the two columns. *)
Lemma C8_search_term_noninterference_witness :
  let m := BlockchainExplorer.mounted (TestHost.constant (1 # 2)) in
  let fetched :=
    BlockchainExplorer.UserChanged (Some TestHost.alice)
      (TestHost.ok [TestHost.a1; TestHost.a2]) in
  let typed1 := [BlockchainExplorer.SearchInput (lit "a1"); fetched] in
  let typed2 := [fetched; BlockchainExplorer.SearchInput (lit " node");
                 BlockchainExplorer.CardClick 1] in
  let typed3 := [fetched; BlockchainExplorer.CardClick 1] in
  BlockchainExplorer.strip_search typed2 = BlockchainExplorer.strip_search typed3 /\
  BlockchainExplorer.panels (H := TestHost.host)
    (BlockchainExplorer.run (H := TestHost.host) m typed2) =
  BlockchainExplorer.panels (H := TestHost.host)
    (BlockchainExplorer.run (H := TestHost.host) m typed3) /\
  BlockchainExplorer.searchTerm
    (BlockchainExplorer.state
       (BlockchainExplorer.run (H := TestHost.host) m typed1)) = lit "a1".
Proof.
  intros m fetched typed1 typed2 typed3.
  split_and!; [reflexivity | | reflexivity].
  apply (C8_search_term_noninterference (H := TestHost.host)
           None BlockchainExplorer.initial [] [] m typed2 typed3).
  reflexivity.
Defined.

Section ListViewFailure.
Import BlockchainExplorer.
Context `{Host}.

(** C4 (as the code has it).  When a fetch of the list view fails, the
    error is logged to the console and nothing else is emitted (no toast, no
    navigation); the stored block list is left as it was, the loading flag
    is cleared.  When the stored list was empty before the fetch, as it is
    at the first fetch, it is empty afterwards and the component is in the
    very state a successful fetch of no records leaves it in, so the page
    rendered is the same. *)
Theorem C4_failed_fetch_leaves_list_as_it_was
        (u : User.t) (answer : Settled (list VerificationData.t))
        (g : Rng) (st : State) (payload : Logged) :
  failure answer = Some payload ->
  let result := loadUserVerifications (Some u) answer g st in
  let st' := result.1.1 in
  (exists msg, result.1.2 = [list_query u; ConsoleError msg payload]) /\
  forallb silent result.1.2 = true /\
  userBlocks st' = userBlocks st /\
  loading st' = false /\
  (userBlocks st = [] ->
   let empty := loadUserVerifications
                  (Some u) (Resolved (mkResponse (Some []) None)) g st in
   userBlocks st' = [] /\
   st' = empty.1.1 /\
   render (Some u) st' = render (Some u) empty.1.1 /\
   list_panel (render (Some u) st') = NoVerificationsYet).
Proof.
  intros Hf result st'. subst result st'.
  destruct (loadUserVerifications_failed u answer g st payload Hf) as [msg ->].
  cbn [fst snd]. split_and!; [eauto | reflexivity | reflexivity | reflexivity |].
  intros Hnil.
  rewrite loadUserVerifications_ok. cbn [fst snd default imapR].
  assert (setLoading false st
          = mkState (searchTerm st) (selectedBlock st) [] false) as ->
      by (unfold setLoading; by rewrite Hnil).
  done.
Qed.

End ListViewFailure.

(** A first fetch that is refused: only the console sees it, and the page
    is the one of an owner without records. *)
Lemma C4_failed_fetch_leaves_list_as_it_was_witness :
  let result :=
    BlockchainExplorer.loadUserVerifications (H := TestHost.host)
      (Some TestHost.alice) TestHost.refused (TestHost.constant (1 # 2))
      BlockchainExplorer.initial in
  forallb silent result.1.2 = true /\
  BlockchainExplorer.userBlocks result.1.1 = [] /\
  BlockchainExplorer.loading result.1.1 = false.
Proof.
  intros result.
  destruct (C4_failed_fetch_leaves_list_as_it_was (H := TestHost.host)
              TestHost.alice TestHost.refused (TestHost.constant (1 # 2))
              BlockchainExplorer.initial
              (LoggedError (mkError (lit "500") (lit "unavailable")))
              eq_refl)
    as (_ & Hsilent & Hblocks & Hloading & _).
  split_and!; [exact Hsilent | exact Hblocks | exact Hloading].
Defined.

(** C4, as stated, fails: after one fetch has filled the list, a later
    fetch that fails (the identity object changed and the read was refused)
    leaves the earlier blocks stored and on the page. *)
Lemma C4_failed_fetch_list_not_empty :
  let g := TestHost.constant (1 # 2) in
  let before :=
    BlockchainExplorer.run (H := TestHost.host) (BlockchainExplorer.mounted g)
      [BlockchainExplorer.UserChanged (Some TestHost.alice)
         (TestHost.ok [TestHost.a1])] in
  let result :=
    BlockchainExplorer.loadUserVerifications (H := TestHost.host)
      (Some TestHost.alice) TestHost.refused
      (BlockchainExplorer.rng before) (BlockchainExplorer.state before) in
  is_Some (failure (A := list VerificationData.t) TestHost.refused) /\
  BlockchainExplorer.userBlocks result.1.1 <> [] /\
  Block.id <$> BlockchainExplorer.userBlocks result.1.1 = [lit "a1"] /\
  BlockchainExplorer.list_panel
    (BlockchainExplorer.render (H := TestHost.host)
       (Some TestHost.alice) result.1.1)
  <> BlockchainExplorer.NoVerificationsYet.
Proof.
  split_and!; [by eexists | discriminate | reflexivity | discriminate].
Qed.

(* ===================================================================== *)
(** ** The detail view *)
(* ===================================================================== *)

Section DetailViewLoading.
Import ReportDetails.
Context `{Host}.

(** Without both identities the effect does nothing at all. *)
Lemma on_deps_absent i u answer st :
  truthy i && bool_decide (is_Some u) = false ->
  on_deps i u answer st = (st, []).
Proof. unfold on_deps. by intros ->. Qed.

(** No button exists while the loading markup is shown, and the effect is
    guarded: such an event leaves the hook state and the trace alone. *)
Lemma step_keeps_absent m ev :
  keeps_absent ev = true ->
  state m = initial ->
  state (step m ev) = initial /\ emitted (step m ev) = emitted m.
Proof.
  intros Hev Hst. destruct ev as [i u answer| | |]; simpl in *.
  - apply negb_true_iff in Hev. rewrite on_deps_absent by done.
    simpl. by rewrite app_nil_r.
  - by rewrite Hst.
  - by rewrite Hst.
  - by rewrite Hst.
Qed.

Lemma run_keeps_absent evs : forall m,
  forallb keeps_absent evs = true ->
  state m = initial ->
  state (run m evs) = initial /\ emitted (run m evs) = emitted m.
Proof.
  unfold run. induction evs as [|ev evs IH]; intros m Hevs Hst; [done|].
  simpl in Hevs. apply andb_true_iff in Hevs as [Hev Hevs].
  destruct (step_keeps_absent m ev Hev Hst) as [Hst' Hem].
  cbn [foldl]. destruct (IH (step m ev) Hevs Hst') as [? ?].
  split; [done | congruence].
Qed.

(** C10.  As long as the route's record identity or the authenticated
    identity is absent, whatever happens and however often the effect
    re-runs: no read is issued (nothing at all is emitted: no toast, no
    navigation), the hook state is the initial one with the loading flag
    still true, and every render is the loading placeholder, not the
    not-found markup. *)
Theorem C10_absent_identity_loads_forever (evs : list Event) :
  forallb keeps_absent evs = true ->
  let m := run mounted evs in
  emitted m = [] /\
  state m = initial /\
  loading (state m) = true /\
  report (state m) = None /\
  (forall g, render (state m) g = (LoadingView, g)).
Proof.
  intros Hevs m.
  destruct (run_keeps_absent evs mounted Hevs eq_refl) as [Hst Hem].
  subst m. rewrite Hst. split_and!; try done.
Qed.

End DetailViewLoading.

(** The route supplies an id but nobody is signed in; later the id is
    missing while alice is signed in; in between the user's clicks find no
    button. *)
Lemma C10_absent_identity_loads_forever_witness :
  let evs :=
    [ReportDetails.DepsChanged (Some (lit "a1")) None (TestHost.ok TestHost.a1);
     ReportDetails.ClickDownload;
     ReportDetails.ClickBack;
     ReportDetails.DepsChanged None (Some TestHost.alice) (TestHost.ok TestHost.a1);
     ReportDetails.DepsChanged (Some []) (Some TestHost.alice)
                               (TestHost.ok TestHost.a1)] in
  let m := ReportDetails.run (H := TestHost.host) ReportDetails.mounted evs in
  ReportDetails.emitted m = [] /\
  ReportDetails.loading (ReportDetails.state m) = true.
Proof.
  intros evs m.
  destruct (C10_absent_identity_loads_forever (H := TestHost.host) evs eq_refl)
    as (Hem & _ & Hload & _).
  split; [exact Hem | exact Hload].
Defined.

Section DetailViewErrors.
Import ReportDetails.
Context `{Host}.

(** What any error reported by the client leads to. *)
Lemma loadReportDetails_error i u d e st :
  loadReportDetails i u (Resolved (mkResponse d (Some e))) st =
  (mkState (report st) false,
   [detail_query i u;
    ConsoleError (lit "Error loading report:") (LoggedError e);
    load_failed_toast;
    Navigate (lit "/reports")]).
Proof. reflexivity. Qed.

(** A record that is absent, or owned by someone else, reaches the view as
    an error of the client. *)
Lemma fetch_one_not_found table i u :
  DataStore.not_found table i u ->
  DataStore.fetch_one table i u =
  Resolved (mkResponse None (Some DataStore.no_single_row)).
Proof. unfold DataStore.not_found, DataStore.fetch_one. by intros ->. Qed.

(** C3 (as the code has it).  In the detail view a record that is not found
    (absent, or owned by a different identity) is handled exactly like any
    other fetch error [e] reported by the client: the error is logged, the
    same toast is shown, the view navigates to the list route; what the user
    can observe (toast and navigation), the resulting hook state and the
    markup rendered from it are the same in both cases, so no message is
    specific to "not found".  The record slot is left as it was: when no
    record had been loaded the markup is the record-free placeholder, and
    when a record had been loaded that record stays rendered. *)
Theorem C3_not_found_handled_as_fetch_error
        (table : list VerificationData.t)
        (i : option jsstring) (u : option User.t)
        (e : PostgrestError) (st : State) :
  DataStore.not_found table i u ->
  let missing := loadReportDetails i u (DataStore.fetch_one table i u) st in
  let failed := loadReportDetails i u (Resolved (mkResponse None (Some e))) st in
  let read :=
    Select (lit "verifications")
           [(lit "id", i); (lit "user_id", User.id <$> u)] None true in
  (exists e0,
      missing.2 =
      [read;
       ConsoleError (lit "Error loading report:") (LoggedError e0);
       Toast (lit "Error") (lit "Failed to load report details")
             (Some (lit "destructive"));
       Navigate (lit "/reports")]) /\
  failed.2 =
    [read;
     ConsoleError (lit "Error loading report:") (LoggedError e);
     Toast (lit "Error") (lit "Failed to load report details")
           (Some (lit "destructive"));
     Navigate (lit "/reports")] /\
  visible missing.2 =
    [Toast (lit "Error") (lit "Failed to load report details")
           (Some (lit "destructive"));
     Navigate (lit "/reports")] /\
  visible missing.2 = visible failed.2 /\
  missing.1 = failed.1 /\
  (forall g, render missing.1 g = render failed.1 g) /\
  report missing.1 = report st /\
  loading missing.1 = false /\
  (report st = None -> forall g, render missing.1 g = (NotFoundView, g)) /\
  (forall r0, report st = Some r0 ->
              forall g, render missing.1 g = render (mkState (Some r0) false) g).
Proof.
  intros Hnf missing failed read. subst missing failed read.
  rewrite (fetch_one_not_found _ _ _ Hnf), !loadReportDetails_error.
  cbn [fst snd]. split_and!; try done.
  - by eexists.
  - intros Hnone g. unfold render. cbn [loading report]. by rewrite Hnone.
  - intros r0 Hr0 g. by rewrite Hr0.
Qed.

End DetailViewErrors.

(** Alice asks for record a2 of a table that holds a2 for somebody else
    only: the view logs, toasts, navigates back and shows no record. *)
Lemma C3_not_found_handled_as_fetch_error_witness :
  let theirs :=
    VerificationData.mk (lit "a2") (lit "second") false 40 None
                        (lit "2024-01-01") (lit "V") in
  let missing :=
    ReportDetails.loadReportDetails (Some (lit "a2")) (Some TestHost.alice)
      (DataStore.fetch_one [TestHost.a1; theirs] (Some (lit "a2"))
                           (Some TestHost.alice))
      ReportDetails.initial in
  DataStore.not_found [TestHost.a1; theirs] (Some (lit "a2")) (Some TestHost.alice) /\
  ReportDetails.visible missing.2 =
    [ReportDetails.load_failed_toast; Navigate (lit "/reports")] /\
  ReportDetails.render (H := TestHost.host) missing.1 (TestHost.constant (1 # 2))
  = (ReportDetails.NotFoundView, TestHost.constant (1 # 2)).
Proof.
  intros theirs missing.
  assert (DataStore.not_found [TestHost.a1; theirs] (Some (lit "a2"))
                              (Some TestHost.alice)) as Hnf by reflexivity.
  split; [exact Hnf|].
  destruct (C3_not_found_handled_as_fetch_error (H := TestHost.host)
              [TestHost.a1; theirs] (Some (lit "a2")) (Some TestHost.alice)
              DataStore.no_single_row ReportDetails.initial Hnf)
    as (_ & _ & _ & _ & _ & _ & _ & _ & Hview & _).
  split; [reflexivity | exact (Hview eq_refl _)].
Defined.

(** C3, as stated, fails after a record has been loaded: alice has a1 on
    screen, the route changes to a record that does not exist, the view
    logs, toasts and navigates, and the fields of a1 are still rendered. *)
Lemma C3_not_found_after_a_loaded_record :
  let g := TestHost.constant (1 # 2) in
  let m := ReportDetails.run (H := TestHost.host) ReportDetails.mounted
             [ReportDetails.DepsChanged (Some (lit "a1")) (Some TestHost.alice)
                (DataStore.fetch_one [TestHost.a1] (Some (lit "a1"))
                                     (Some TestHost.alice));
              ReportDetails.DepsChanged (Some (lit "zz")) (Some TestHost.alice)
                (DataStore.fetch_one [TestHost.a1] (Some (lit "zz"))
                                     (Some TestHost.alice))] in
  DataStore.not_found [TestHost.a1] (Some (lit "zz")) (Some TestHost.alice) /\
  ReportDetails.visible (ReportDetails.emitted m) =
    [ReportDetails.load_failed_toast; Navigate (lit "/reports")] /\
  ReportDetails.screen (ReportDetails.state m) = ReportDetails.OnReport /\
  exists markup,
    (ReportDetails.render (H := TestHost.host) (ReportDetails.state m) g).1
    = ReportDetails.ReportView markup /\
    ReportDetails.hash_line markup = lit "0xabc" /\
    ReportDetails.confidence_label markup = lit "87%" /\
    ReportDetails.document_id markup = lit "Document ID: a1...".
Proof.
  split_and!; [reflexivity | reflexivity | reflexivity |].
  eexists. split_and!; reflexivity.
Qed.

(* ===================================================================== *)
(** ** The exported report *)
(* ===================================================================== *)

Section Occurrences.

Lemma occurs_in_skip p needle hay :
  occurs_in needle hay -> occurs_in needle (p ++ hay).
Proof.
  intros (pre & post & ->). exists (p ++ pre), post. by rewrite <- app_assoc.
Qed.

Lemma occurs_in_1 a rest : occurs_in a (a ++ rest).
Proof. by exists [], rest. Qed.

Lemma occurs_in_3 a b c rest : occurs_in (a ++ b ++ c) (a ++ b ++ c ++ rest).
Proof. exists [], rest. by rewrite <- !app_assoc. Qed.

Lemma occurs_in_4 a b c d rest :
  occurs_in (a ++ b ++ c ++ d) (a ++ b ++ c ++ d ++ rest).
Proof. exists [], rest. by rewrite <- !app_assoc. Qed.

End Occurrences.

Ltac find_line :=
  repeat first [ apply occurs_in_4 | apply occurs_in_3 | apply occurs_in_1
               | apply occurs_in_skip ].

Section DetailViewDownload.
Import ReportDetails.
Context `{Host}.

(** C5.  For a loaded record [r] the download action hands the browser a
    [text/plain] document under the file name [scanit-report-{r.id}.txt]
    (and confirms with a toast); the document has a line for r's id, for
    its creation timestamp (in the locale's format), for its integrity tag
    (the tag itself when the record has one, the word null when it has
    none), for its classification label, for its confidence and for the
    length of its content, and it has r's content verbatim between the
    [Content:] heading and the end. *)
Theorem C5_download_report_document (m : Mounted) (r : VerificationData.t) :
  state m = mkState (Some r) false ->
  exists doc,
    emitted (step m ClickDownload) =
    emitted m ++
      [CreateObjectURL (mkBlob doc (lit "text/plain"));
       AnchorClick (mkBlob doc (lit "text/plain"))
                   (lit "scanit-report-" ++ VerificationData.id r ++ lit ".txt");
       RevokeObjectURL (mkBlob doc (lit "text/plain"));
       Toast (lit "Report Downloaded")
             (lit "Detailed report has been downloaded successfully") None] /\
    doc = reportContent r /\
    occurs_in (lit "- Content ID: " ++ VerificationData.id r ++ [10%N]) doc /\
    occurs_in (lit "- Analysis Date: " ++
               toLocaleString (VerificationData.created_at r) ++ [10%N]) doc /\
    (forall h, VerificationData.blockchain_hash r = Some h ->
               occurs_in (lit "- Blockchain Hash: " ++ h ++ [10%N]) doc) /\
    (VerificationData.blockchain_hash r = None ->
     occurs_in (lit "- Blockchain Hash: null" ++ [10%N]) doc) /\
    occurs_in (lit "- Classification: " ++
               (if VerificationData.is_ai_generated r
                then lit "AI-Generated" else lit "Human-Written") ++ [10%N]) doc /\
    occurs_in (lit "- Confidence: " ++
               Number_toString (VerificationData.confidence r) ++
               lit "%" ++ [10%N]) doc /\
    occurs_in (lit "- Content Length: " ++
               Number_toString
                 (inject_Z (Z.of_nat (length (VerificationData.content r)))) ++
               lit " characters" ++ [10%N]) doc /\
    occurs_in (lit "Content:" ++ [10%N] ++ VerificationData.content r ++ [10%N]) doc /\
    occurs_in (VerificationData.content r) doc.
Proof.
  intros Hst. exists (reportContent r).
  split.
  { unfold step, screen, downloadReport. by rewrite Hst. }
  split; [done|].
  change [10%N] with nl.
  unfold reportContent, classification.
  split_and!; try find_line.
  - intros h ->. cbn [interpolate]. find_line.
  - intros ->. cbn [interpolate].
    change (lit "- Blockchain Hash: null")
      with (lit "- Blockchain Hash: " ++ lit "null").
    rewrite <- (app_assoc (lit "- Blockchain Hash: ")). find_line.
Qed.

End DetailViewDownload.

(** Downloading record a1. *)
Lemma C5_download_report_document_witness :
  let m := ReportDetails.run (H := TestHost.host) ReportDetails.mounted
             [ReportDetails.DepsChanged (Some (lit "a1")) (Some TestHost.alice)
                                        (TestHost.ok TestHost.a1)] in
  exists doc,
    ReportDetails.emitted (ReportDetails.step (H := TestHost.host) m
                                              ReportDetails.ClickDownload) =
    ReportDetails.emitted m ++
      [CreateObjectURL (mkBlob doc (lit "text/plain"));
       AnchorClick (mkBlob doc (lit "text/plain")) (lit "scanit-report-a1.txt");
       RevokeObjectURL (mkBlob doc (lit "text/plain"));
       Toast (lit "Report Downloaded")
             (lit "Detailed report has been downloaded successfully") None] /\
    occurs_in (lit "- Content ID: " ++ lit "a1" ++ [10%N]) doc /\
    occurs_in (lit "- Blockchain Hash: " ++ lit "0xabc" ++ [10%N]) doc /\
    occurs_in (lit "first line") doc.
Proof.
  intros m.
  destruct (C5_download_report_document (H := TestHost.host) m TestHost.a1 eq_refl)
    as (doc & Hemit & _ & Hid & _ & Hhash & _ & _ & _ & _ & _ & Hcontent).
  exists doc.
  split_and!; [exact Hemit | exact Hid | exact (Hhash _ eq_refl) | exact Hcontent].
Defined.

(* ===================================================================== *)
(** ** The rendered report *)
(* ===================================================================== *)

Section Floor.
Local Open Scope Q_scope.

(** [Math.floor] of a rational is the integer whose unit interval holds it. *)
Lemma Qfloor_spec (x : Q) (n : Z) :
  Qfloor x = n <-> inject_Z n <= x /\ x < inject_Z (n + 1).
Proof.
  split.
  - intros <-. split; [apply Qfloor_le | apply Qlt_floor].
  - intros [Hlo Hhi].
    apply Qfloor_resp_le in Hlo. rewrite Qfloor_Z in Hlo.
    pose proof (Qfloor_le x) as Hfl.
    assert (inject_Z (Qfloor x) < inject_Z (n + 1)) as Hlt
        by (eapply Qle_lt_trans; eauto).
    rewrite <- Zlt_Qlt in Hlt. lia.
Qed.

End Floor.

Section DetailViewMarkup.
Import ReportDetails.
Context `{Host}.
Local Open Scope Q_scope.

(** The markup with its draws named: the first two draws are the scores,
    the words take the ones after. *)
Lemma render_report_draws r g :
  bar_width (render_report r g).1 = Percent (VerificationData.confidence r) /\
  detectGPT (render_report r g).1 = detectGPT_score (draws g (cursor g)) /\
  fastDetectGPT (render_report r g).1
    = fastDetectGPT_score (draws g (S (cursor g))) /\
  paragraphs (render_report r g).1 =
    (imapR (render_paragraph (VerificationData.is_ai_generated r)) 0
           (split LF (VerificationData.content r))
           (mkRng (draws g) (S (S (cursor g))))).1.
Proof.
  unfold render_report, Math_random. cbn [draws cursor].
  by destruct (imapR _ _ _ _).
Qed.

(** C6.  The width of the confidence bar is the percentage [confidence]% of
    its track: over the valid range 0-100 it is monotone in the confidence
    and linear in it (the track's width over 100 times the confidence), and
    stays within the track; the style is the confidence itself for every
    record, in range or not: nothing clamps it. *)
Theorem C6_confidence_bar_width
        (r1 r2 : VerificationData.t) (g1 g2 : Rng) (track : Q) :
  0 <= track ->
  0 <= VerificationData.confidence r1 ->
  VerificationData.confidence r1 <= VerificationData.confidence r2 ->
  VerificationData.confidence r2 <= 100 ->
  let width r g := used_width track (bar_width (render_report r g).1) in
  width r1 g1 <= width r2 g2 /\
  width r1 g1 == (track / 100) * VerificationData.confidence r1 /\
  width r2 g2 == (track / 100) * VerificationData.confidence r2 /\
  0 <= width r1 g1 /\
  width r2 g2 <= track /\
  (forall r g, bar_width (render_report r g).1
               = Percent (VerificationData.confidence r)).
Proof.
  intros Htrack Hlo Hle Hhi width. subst width. cbn beta.
  destruct (render_report_draws r1 g1) as (-> & _).
  destruct (render_report_draws r2 g2) as (-> & _).
  unfold used_width.
  set (c1 := VerificationData.confidence r1) in *.
  set (c2 := VerificationData.confidence r2) in *.
  assert (track * c1 <= track * c2) as Hmono by nra.
  assert (0 <= track * c1) as Hpos by nra.
  assert (track * c2 <= track * 100) as Hin by nra.
  split_and!.
  - apply Qmult_le_compat_r; [done|]. by compute.
  - field.
  - field.
  - apply Qle_shift_div_l; [by compute|]. lra.
  - apply Qle_shift_div_r; [by compute|]. lra.
  - intros r g. by destruct (render_report_draws r g) as (-> & _).
Qed.

End DetailViewMarkup.

Section DoubleFacts.
Import Double Observe.
Local Open Scope Q_scope.

Lemma pow2_pos e : 0 < pow2 e.
Proof. apply Qpower_0_lt. reflexivity. Qed.

Lemma pow2_succ e : pow2 (e + 1) == 2 * pow2 e.
Proof.
  unfold pow2. rewrite Qpower_plus by discriminate. change (2 ^ 1) with 2. ring.
Qed.

Lemma pow2_le e1 e2 : (e1 <= e2)%Z -> pow2 e1 <= pow2 e2.
Proof. intros. apply Qpower_le_compat_l; [done | discriminate]. Qed.

Lemma pow2_lt_inv e1 e2 : pow2 e1 < pow2 e2 -> (e1 < e2)%Z.
Proof. intros. eapply Qpower_lt_compat_l_inv; [done | reflexivity]. Qed.

Lemma pow2_log2 (n : Z) :
  (0 < n)%Z -> pow2 (Z.log2 n) <= inject_Z n /\ inject_Z n < 2 * pow2 (Z.log2 n).
Proof.
  intros Hn. destruct (Z.log2_spec n Hn) as [Hlo Hhi].
  pose proof (Z.log2_nonneg n) as Hnn.
  unfold pow2. rewrite <- (Zpower_Qpower 2) by done.
  split.
  - by rewrite <- Zle_Qle.
  - change 2 with (inject_Z 2) at 1. rewrite <- inject_Z_mult, <- Zlt_Qlt.
    rewrite Z.pow_succ_r in Hhi by done. done.
Qed.

Lemma binade_spec x :
  0 < x -> pow2 (binade x) <= x /\ x < pow2 (binade x + 1).
Proof.
  intros Hx. destruct x as [n d]. unfold binade. cbn [Qnum Qden].
  assert (0 < n)%Z as Hn by (unfold Qlt in Hx; cbn in Hx; lia).
  destruct (pow2_log2 n Hn) as [Hn1 Hn2].
  destruct (pow2_log2 (Zpos d) eq_refl) as [Hd1 Hd2].
  set (a := Z.log2 n) in *. set (b := Z.log2 (Zpos d)) in *.
  pose proof (pow2_pos a) as Ha. pose proof (pow2_pos b) as Hb.
  assert (pow2 (a - b) == pow2 a / pow2 b) as Hab
      by (unfold pow2; apply Qpower_minus; discriminate).
  assert (0 < inject_Z (Zpos d)) as Hd by reflexivity.
  assert (n # d == inject_Z n / inject_Z (Zpos d)) as Hq by apply Qmake_Qdiv.
  assert (pow2 (a - b) * pow2 b == pow2 a) as Hmul by (rewrite Hab; field; lra).
  assert (pow2 (a - b) == 2 * pow2 (a - b - 1)) as Hs
      by (rewrite <- pow2_succ; by replace (a - b - 1 + 1)%Z with (a - b)%Z by lia).
  pose proof (pow2_pos (a - b - 1)) as Hp.
  set (N := inject_Z n) in *. set (D := inject_Z (Zpos d)) in *.
  set (A := pow2 a) in *. set (B := pow2 b) in *.
  set (P := pow2 (a - b - 1)) in *. set (R := pow2 (a - b)) in *.
  assert (n # d < pow2 (a - b + 1)) as Hup.
  { rewrite pow2_succ, Hq. fold R. apply Qlt_shift_div_r; [done|].
    clearbody N D A B P R. nra. }
  assert (P <= n # d) as Hdown.
  { rewrite Hq. apply Qle_shift_div_l; [done|]. clearbody N D A B P R. nra. }
  destruct (Qle_bool R (n # d)) eqn:Htest.
  - apply Qle_bool_iff in Htest. done.
  - replace (a - b - 1 + 1)%Z with (a - b)%Z by lia. split; [done|].
    apply Qnot_le_lt. intros Hle. apply Qle_bool_iff in Hle. fold R in Hle. congruence.
Qed.

Lemma binade_ge x k : 0 < x -> pow2 k <= x -> (k <= binade x)%Z.
Proof.
  intros Hx Hk. destruct (binade_spec x Hx) as [_ Hhi].
  assert (pow2 k < pow2 (binade x + 1)) as Hlt by (eapply Qle_lt_trans; eauto).
  apply pow2_lt_inv in Hlt. lia.
Qed.

Lemma binade_lt x k : 0 < x -> x < pow2 k -> (binade x < k)%Z.
Proof.
  intros Hx Hk. destruct (binade_spec x Hx) as [Hlo _].
  apply pow2_lt_inv. eapply Qle_lt_trans; eauto.
Qed.

Lemma round_half_even_bounds y :
  y - (1 # 2) <= inject_Z (round_half_even y) /\
  inject_Z (round_half_even y) <= y + (1 # 2).
Proof.
  unfold round_half_even.
  pose proof (Qfloor_le y) as Hlo. pose proof (Qlt_floor y) as Hhi.
  rewrite inject_Z_plus in Hhi. change (inject_Z 1) with 1 in Hhi.
  set (f := Qfloor y) in *.
  destruct (Qcompare_spec (y - inject_Z f) (1 # 2)) as [He|Hl|Hg].
  - destruct (Z.even f); [|rewrite inject_Z_plus; change (inject_Z 1) with 1];
      split; lra.
  - split; lra.
  - rewrite inject_Z_plus. change (inject_Z 1) with 1. split; lra.
Qed.

Lemma round_half_even_nonneg y : 0 <= y -> (0 <= round_half_even y)%Z.
Proof.
  intros Hy. unfold round_half_even.
  assert (0 <= Qfloor y)%Z as Hf
      by (change 0%Z with (Qfloor 0); by apply Qfloor_resp_le).
  destruct (Qcompare _ _); [destruct (Z.even _) | |]; lia.
Qed.

Lemma round_pos x :
  0 < x -> round x = inject_Z (round_half_even (x / ulp x)) * ulp x.
Proof.
  intros Hx. unfold round. by rewrite (proj1 (Qgt_alt x 0) Hx).
Qed.

Lemma ulp_pos x : 0 < ulp x.
Proof. apply pow2_pos. Qed.

(** Rounding moves a positive number by at most half a unit in the last place, and not below zero. *)
Lemma round_error x :
  0 < x ->
  x - ulp x / 2 <= round x /\ round x <= x + ulp x / 2 /\ 0 <= round x.
Proof.
  intros Hx. rewrite round_pos by done.
  pose proof (ulp_pos x) as Hu.
  destruct (round_half_even_bounds (x / ulp x)) as [Hlo Hhi].
  assert (0 <= x / ulp x) as Hq by (apply Qle_shift_div_l; lra).
  pose proof (round_half_even_nonneg _ Hq) as Hnn.
  rewrite Zle_Qle in Hnn. change (inject_Z 0) with 0 in Hnn.
  set (m := inject_Z (round_half_even (x / ulp x))) in *.
  assert (x == (x / ulp x) * ulp x) as Hxu by (field; lra).
  set (q := x / ulp x) in *. set (U := ulp x) in *. clearbody q m U.
  assert (U / 2 == U * (1 # 2)) as -> by field.
  assert (0 <= (m - (q - (1 # 2))) * U) as H1 by (apply Qmult_le_0_compat; lra).
  assert (0 <= (q + (1 # 2) - m) * U) as H2 by (apply Qmult_le_0_compat; lra).
  assert (0 <= m * U) as H3 by (apply Qmult_le_0_compat; lra).
  split_and!; lra.
Qed.

(** Below 32 the doubles are at most 2^-48 apart. *)
Lemma ulp_below_32 x : 0 < x -> x < 32 -> ulp x <= pow2 (-48).
Proof.
  intros Hx H32. unfold ulp. apply pow2_le.
  pose proof (binade_lt x 5 Hx H32). lia.
Qed.

(** A double of [1/2, 1) is a multiple of 2^-53. *)
Lemma double_in_upper_half u :
  is_double u -> 1 # 2 <= u -> u < 1 ->
  exists m : Z, u == inject_Z m * pow2 (-53) /\ (m < 2 ^ 53)%Z.
Proof.
  intros Hd Hlo Hhi. assert (0 < u) as Hu by lra.
  assert (binade u = (-1)%Z) as Hb.
  { pose proof (binade_ge u (-1) Hu Hlo). pose proof (binade_lt u 0 Hu Hhi). lia. }
  unfold is_double in Hd. rewrite round_pos in Hd by done.
  unfold ulp in Hd. rewrite Hb in Hd. change (Z.max (-1) (-1022) - 52)%Z with (-53)%Z in Hd.
  exists (round_half_even (u / pow2 (-53))). split; [by symmetry|].
  set (m := round_half_even _) in *.
  assert (inject_Z m < inject_Z (2 ^ 53)) as Hm.
  { assert (pow2 (-53) * inject_Z (2 ^ 53) == 1) as Hone by reflexivity.
    pose proof (pow2_pos (-53)). nra. }
  by rewrite <- Zlt_Qlt in Hm.
Qed.


Lemma pow2_m53 : pow2 (-53) == 1 # 9007199254740992.
Proof. reflexivity. Qed.

Lemma pow2_m48 : pow2 (-48) == 1 # 281474976710656.
Proof. reflexivity. Qed.

(** A draw is a double below 1: at most 1 - 2^-53. *)
Lemma double_draw_max u : double_draw u -> u <= 1 - pow2 (-53).
Proof.
  intros [[Hlo Hhi] Hd]. rewrite pow2_m53.
  destruct (Qlt_le_dec u (1 # 2)) as [Hhalf|Hhalf]; [lra|].
  destruct (double_in_upper_half u Hd Hhalf Hhi) as (m & Hu & Hm).
  assert (inject_Z m <= inject_Z (2 ^ 53 - 1)) as Hm' by (rewrite <- Zle_Qle; lia).
  change (inject_Z (2 ^ 53 - 1)) with (9007199254740991 # 1) in Hm'.
  rewrite pow2_m53 in Hu. lra.
Qed.

(** Rounding a positive number below 32: within 2^-49. *)
Lemma round_below_32 x :
  0 < x -> x < 32 ->
  x - pow2 (-49) <= round x /\ round x <= x + pow2 (-49) /\ 0 <= round x.
Proof.
  intros Hx H32. destruct (round_error x Hx) as (Hlo & Hhi & Hnn).
  pose proof (ulp_below_32 x Hx H32) as Hu. rewrite pow2_m48 in Hu.
  assert (pow2 (-49) == 1 # 562949953421312) as -> by reflexivity.
  set (U := ulp x) in *. clearbody U.
  assert (U / 2 == U * (1 # 2)) as E by field. rewrite E in Hlo, Hhi.
  split_and!; lra.
Qed.

Lemma round_zero x : x == 0 -> round x = 0.
Proof. intros Hx. unfold round. by rewrite (proj1 (Qeq_alt x 0) Hx). Qed.

(** [Math.floor(u * c)] for a draw and an integer factor between 17 and 31. *)
Lemma floor_mul_draw u c :
  double_draw u -> (16 < c < 32)%Z ->
  (0 <= Qfloor (mul u (inject_Z c)) <= c - 1)%Z.
Proof.
  intros Hu [Hc1 Hc2]. pose proof (double_draw_max u Hu) as Hmax.
  destruct Hu as [[Hlo Hhi] _]. rewrite pow2_m53 in Hmax.
  assert (inject_Z 17 <= inject_Z c) as Hc1' by (rewrite <- Zle_Qle; lia).
  assert (inject_Z c <= inject_Z 31) as Hc2' by (rewrite <- Zle_Qle; lia).
  change (inject_Z 17) with 17 in Hc1'. change (inject_Z 31) with 31 in Hc2'.
  unfold mul. set (C := inject_Z c) in *.
  destruct (Qlt_le_dec 0 (u * C)) as [Hpos|Hzero].
  - assert (u * C <= C - C * (1 # 9007199254740992)) as Hx by nra.
    assert (u * C < 32) as H32 by nra.
    destruct (round_below_32 (u * C) Hpos H32) as (_ & Hup & Hnn).
    assert (pow2 (-49) == 1 # 562949953421312) as E by reflexivity.
    rewrite E in Hup.
    assert (round (u * C) < C) as Hlt by nra.
    split.
    + change 0%Z with (Qfloor 0). by apply Qfloor_resp_le.
    + pose proof (Qfloor_le (round (u * C))) as Hfl.
      assert (inject_Z (Qfloor (round (u * C))) < inject_Z c) as Hz
          by (fold C; lra).
      rewrite <- Zlt_Qlt in Hz. lia.
  - assert (u * C == 0) as Hz by nra.
    rewrite (round_zero _ Hz). change (Qfloor 0) with 0%Z. lia.
Qed.

(** The draws that give [Math.floor(u * c) = j], up to rounding. *)
Lemma floor_round_inside x j :
  0 < x -> x < 32 ->
  inject_Z j + pow2 (-49) <= x -> x < inject_Z (j + 1) - pow2 (-49) ->
  Qfloor (round x) = j.
Proof.
  intros Hx H32 Hlo Hhi. destruct (round_below_32 x Hx H32) as (Hl & Hu & _).
  apply Qfloor_spec. split; lra.
Qed.

Lemma floor_round_outside x j :
  0 <= x -> x < 32 -> Qfloor (round x) = j ->
  inject_Z j - pow2 (-49) <= x /\ x < inject_Z (j + 1) + pow2 (-49).
Proof.
  intros Hx H32 Hj. apply Qfloor_spec in Hj as [Hlo Hhi].
  pose proof (pow2_pos (-49)) as Hp.
  destruct (Qlt_le_dec 0 x) as [Hpos|Hzero].
  - destruct (round_below_32 x Hpos H32) as (Hl & Hu & _). split; lra.
  - assert (x == 0) as Hz by lra. rewrite (round_zero _ Hz) in Hlo, Hhi.
    split; lra.
Qed.

(** On doubles, comparing with the double literal [0.7] and comparing with
    7/10 agree: no double lies between the two. *)
Lemma above_literal_0_7 u :
  double_draw u -> (round (7 # 10) < u <-> 7 # 10 < u).
Proof.
  intros [[Hlo Hhi] Hd].
  assert (round (7 # 10) == 6305039478318694 # 9007199254740992) as -> by reflexivity.
  split; [|lra]. intros Hu.
  destruct (Qlt_le_dec u (1 # 2)) as [Hhalf|Hhalf]; [lra|].
  destruct (double_in_upper_half u Hd Hhalf Hhi) as (m & Hm & _).
  rewrite pow2_m53 in Hm.
  assert (inject_Z 6305039478318694 < inject_Z m) as Hgt
      by (change (inject_Z 6305039478318694) with (6305039478318694 # 1); lra).
  rewrite <- Zlt_Qlt in Hgt.
  assert (inject_Z 6305039478318695 <= inject_Z m) as Hge by (rewrite <- Zle_Qle; lia).
  change (inject_Z 6305039478318695) with (6305039478318695 # 1) in Hge. lra.
Qed.

Lemma midpoint_draws_30 :
  forallb (midpoint_check 30) (Z.of_nat <$> seq 0 30) = true.
Proof. vm_compute. reflexivity. Qed.

Lemma midpoint_draws_25 :
  forallb (midpoint_check 25) (Z.of_nat <$> seq 0 25) = true.
Proof. vm_compute. reflexivity. Qed.

Lemma midpoint_draw_spec (c : Z) (n : nat) j :
  forallb (midpoint_check c) (Z.of_nat <$> seq 0 n) = true ->
  (0 <= j < Z.of_nat n)%Z ->
  double_draw (midpoint_draw c j) /\
  Qfloor (mul (midpoint_draw c j) (inject_Z c)) = j.
Proof.
  intros Hall Hj. rewrite forallb_forall in Hall.
  assert (midpoint_check c j = true) as Hc.
  { apply Hall. apply list_elem_of_In, list_elem_of_fmap.
    exists (Z.to_nat j). split; [lia|]. apply elem_of_seq. lia. }
  unfold midpoint_check in Hc.
  apply andb_true_iff in Hc as [Hc Hfl]. apply andb_true_iff in Hc as [Hc Hd].
  apply andb_true_iff in Hc as [H0 H1].
  apply Qle_bool_iff in H0. apply negb_true_iff in H1.
  apply Qeq_bool_iff in Hd. apply Z.eqb_eq in Hfl.
  split; [|done]. split; [split; [done|]|done].
  apply Qnot_le_lt. intros Hle. apply Qle_bool_iff in Hle. congruence.
Qed.

End DoubleFacts.

Section DetailViewScores.
Import ReportDetails Double Observe.
Context `{Host}.
Local Open Scope Q_scope.

Lemma detectGPT_score_range u :
  double_draw u -> (65 <= detectGPT_score u <= 94)%Z.
Proof.
  intros Hu. pose proof (floor_mul_draw u 30 Hu ltac:(lia)) as Hfl.
  unfold detectGPT_score. change (inject_Z 30) with 30 in Hfl. lia.
Qed.

Lemma fastDetectGPT_score_range u :
  double_draw u -> (70 <= fastDetectGPT_score u <= 94)%Z.
Proof.
  intros Hu. pose proof (floor_mul_draw u 25 Hu ltac:(lia)) as Hfl.
  unfold fastDetectGPT_score. change (inject_Z 25) with 25 in Hfl. lia.
Qed.

(** A draw well inside the [k]-th thirtieth of the unit interval shows
    [k]. *)
Lemma detectGPT_score_inside u k :
  (65 <= k <= 94)%Z ->
  inject_Z (k - 65) / 30 + pow2 (-53) <= u ->
  u < inject_Z (k - 64) / 30 - pow2 (-53) ->
  detectGPT_score u = k.
Proof.
  intros Hk Hlo Hhi. unfold detectGPT_score, mul.
  rewrite Z.add_move_r. rewrite pow2_m53 in Hlo, Hhi.
  assert (0 <= inject_Z (k - 65)) as H0
      by (change 0 with (inject_Z 0); rewrite <- Zle_Qle; lia).
  assert (inject_Z (k - 65) <= 29) as H29
      by (change 29 with (inject_Z 29); rewrite <- Zle_Qle; lia).
  replace (k - 64)%Z with (k - 65 + 1)%Z in Hhi by lia.
  rewrite inject_Z_plus in Hhi. change (inject_Z 1) with 1 in Hhi.
  assert (pow2 (-49) == 1 # 562949953421312) as E by reflexivity.
  set (a := inject_Z (k - 65)) in *.
  assert (a / 30 == a * (1 # 30)) as E1 by field.
  assert ((a + 1) / 30 == (a + 1) * (1 # 30)) as E2 by field.
  rewrite E1 in Hlo. rewrite E2 in Hhi.
  apply floor_round_inside; rewrite ?inject_Z_plus, ?E; fold a;
    change (inject_Z 1) with 1; lra.
Qed.

Lemma fastDetectGPT_score_inside u k :
  (70 <= k <= 94)%Z ->
  inject_Z (k - 70) / 25 + pow2 (-53) <= u ->
  u < inject_Z (k - 69) / 25 - pow2 (-53) ->
  fastDetectGPT_score u = k.
Proof.
  intros Hk Hlo Hhi. unfold fastDetectGPT_score, mul.
  rewrite Z.add_move_r. rewrite pow2_m53 in Hlo, Hhi.
  assert (0 <= inject_Z (k - 70)) as H0
      by (change 0 with (inject_Z 0); rewrite <- Zle_Qle; lia).
  assert (inject_Z (k - 70) <= 24) as H24
      by (change 24 with (inject_Z 24); rewrite <- Zle_Qle; lia).
  replace (k - 69)%Z with (k - 70 + 1)%Z in Hhi by lia.
  rewrite inject_Z_plus in Hhi. change (inject_Z 1) with 1 in Hhi.
  assert (pow2 (-49) == 1 # 562949953421312) as E by reflexivity.
  set (a := inject_Z (k - 70)) in *.
  assert (a / 25 == a * (1 # 25)) as E1 by field.
  assert ((a + 1) / 25 == (a + 1) * (1 # 25)) as E2 by field.
  rewrite E1 in Hlo. rewrite E2 in Hhi.
  apply floor_round_inside; rewrite ?inject_Z_plus, ?E; fold a;
    change (inject_Z 1) with 1; lra.
Qed.

(** A draw that shows [k] lies in the [k]-th thirtieth of the unit
    interval, or within 2^-53 of it. *)
Lemma detectGPT_score_outside u k :
  unit_draw u -> detectGPT_score u = k ->
  inject_Z (k - 65) / 30 - pow2 (-53) <= u /\
  u < inject_Z (k - 64) / 30 + pow2 (-53).
Proof.
  intros [Hlo Hhi] Hk. unfold detectGPT_score, mul in Hk.
  rewrite Z.add_move_r in Hk.
  apply floor_round_outside in Hk; [|lra|lra].
  replace (k - 65 + 1)%Z with (k - 64)%Z in Hk by lia.
  assert (pow2 (-49) == 1 # 562949953421312) as E by reflexivity.
  rewrite E in Hk. rewrite pow2_m53. destruct Hk as [Hl Hu].
  set (a := inject_Z (k - 65)) in *. set (b := inject_Z (k - 64)) in *.
  assert (a / 30 == a * (1 # 30)) as -> by field.
  assert (b / 30 == b * (1 # 30)) as -> by field.
  split; lra.
Qed.

Lemma fastDetectGPT_score_outside u k :
  unit_draw u -> fastDetectGPT_score u = k ->
  inject_Z (k - 70) / 25 - pow2 (-53) <= u /\
  u < inject_Z (k - 69) / 25 + pow2 (-53).
Proof.
  intros [Hlo Hhi] Hk. unfold fastDetectGPT_score, mul in Hk.
  rewrite Z.add_move_r in Hk.
  apply floor_round_outside in Hk; [|lra|lra].
  replace (k - 70 + 1)%Z with (k - 69)%Z in Hk by lia.
  assert (pow2 (-49) == 1 # 562949953421312) as E by reflexivity.
  rewrite E in Hk. rewrite pow2_m53. destruct Hk as [Hl Hu].
  set (a := inject_Z (k - 70)) in *. set (b := inject_Z (k - 69)) in *.
  assert (a / 25 == a * (1 # 25)) as -> by field.
  assert (b / 25 == b * (1 # 25)) as -> by field.
  split; lra.
Qed.

(** C7 (as the code has it).  On every render the two detection scores are
    computed from two separate draws, the first and the second of the
    render, and from nothing else: the record rendered does not matter.
    For every draw (a double of the half-open unit interval) the first
    score is one of 65..94 and the second one of 70..94, and every score of
    these ranges has a draw that gives it.  Score [k] is shown for the
    draws of an interval of length 1/30 (first) or 1/25 (second), up to the
    rounding of the product: for every draw at least 2^-53 inside the
    interval, and for no draw more than 2^-53 outside it.  (The rounding
    shows at the double nearest to 0.7, where the first widget shows 86, and
    at the double nearest to 0.24, where the second shows 76.) *)
Theorem C7_detection_scores (r r' : VerificationData.t) (g : Rng) :
  double_draw (draws g (cursor g)) ->
  double_draw (draws g (S (cursor g))) ->
  let m := (render_report r g).1 in
  detectGPT m = detectGPT_score (draws g (cursor g)) /\
  fastDetectGPT m = fastDetectGPT_score (draws g (S (cursor g))) /\
  detectGPT (render_report r' g).1 = detectGPT m /\
  fastDetectGPT (render_report r' g).1 = fastDetectGPT m /\
  (65 <= detectGPT m <= 94)%Z /\
  (70 <= fastDetectGPT m <= 94)%Z /\
  (forall u k, (65 <= k <= 94)%Z ->
               inject_Z (k - 65) / 30 + pow2 (-53) <= u ->
               u < inject_Z (k - 64) / 30 - pow2 (-53) ->
               detectGPT_score u = k) /\
  (forall u k, unit_draw u -> detectGPT_score u = k ->
               inject_Z (k - 65) / 30 - pow2 (-53) <= u /\
               u < inject_Z (k - 64) / 30 + pow2 (-53)) /\
  (forall u k, (70 <= k <= 94)%Z ->
               inject_Z (k - 70) / 25 + pow2 (-53) <= u ->
               u < inject_Z (k - 69) / 25 - pow2 (-53) ->
               fastDetectGPT_score u = k) /\
  (forall u k, unit_draw u -> fastDetectGPT_score u = k ->
               inject_Z (k - 70) / 25 - pow2 (-53) <= u /\
               u < inject_Z (k - 69) / 25 + pow2 (-53)) /\
  (forall k, (65 <= k <= 94)%Z ->
             exists u, double_draw u /\ detectGPT_score u = k) /\
  (forall k, (70 <= k <= 94)%Z ->
             exists u, double_draw u /\ fastDetectGPT_score u = k) /\
  detectGPT_score (6305039478318694 # 9007199254740992) = 86%Z /\
  fastDetectGPT_score (4323455642275676 # 18014398509481984) = 76%Z.
Proof.
  intros Hu1 Hu2 m. subst m.
  destruct (render_report_draws r g) as (_ & -> & -> & _).
  destruct (render_report_draws r' g) as (_ & -> & -> & _).
  do 4 (split; [done|]).
  split; [by apply detectGPT_score_range|].
  split; [by apply fastDetectGPT_score_range|].
  split; [apply detectGPT_score_inside|].
  split; [apply detectGPT_score_outside|].
  split; [apply fastDetectGPT_score_inside|].
  split; [apply fastDetectGPT_score_outside|].
  split; [|split; [|split]].
  - intros k Hk.
    destruct (midpoint_draw_spec 30 30 (k - 65) midpoint_draws_30 ltac:(lia))
      as [Hd Hfl].
    exists (midpoint_draw 30 (k - 65)). split; [done|].
    unfold detectGPT_score. change 30 with (inject_Z 30). rewrite Hfl. lia.
  - intros k Hk.
    destruct (midpoint_draw_spec 25 25 (k - 70) midpoint_draws_25 ltac:(lia))
      as [Hd Hfl].
    exists (midpoint_draw 25 (k - 70)). split; [done|].
    unfold fastDetectGPT_score. change 25 with (inject_Z 25). rewrite Hfl. lia.
  - by vm_compute.
  - by vm_compute.
Qed.

(** C7, as stated, fails at its upper end: no draw makes either widget
    show 95. *)
Lemma C7_score_95_never_shown :
  ~ exists u, double_draw u /\
              (detectGPT_score u = 95%Z \/ fastDetectGPT_score u = 95%Z).
Proof.
  intros (u & Hu & [H95 | H95]).
  - pose proof (detectGPT_score_range u Hu). lia.
  - pose proof (fastDetectGPT_score_range u Hu). lia.
Qed.

End DetailViewScores.

(** The product is rounded before it is floored: at the double nearest to
    0.7 the first widget shows 86 although 30 times that double is below
    21, and at the double nearest to 0.24 the second widget shows 76. *)
Example scores_round_the_product :
  Double.round (7 # 10) = (6305039478318694 # 9007199254740992) /\
  ReportDetails.detectGPT_score (Double.round (7 # 10)) = 86%Z /\
  (Qfloor (Double.round (7 # 10) * 30) + 65 = 85)%Z /\
  ReportDetails.fastDetectGPT_score (Double.round (24 # 100)) = 76%Z /\
  (Qfloor (Double.round (24 # 100) * 25) + 70 = 75)%Z.
Proof. vm_compute. done. Qed.

(** With every draw equal to 1/2 the widgets show 80 and 82, for record a1
    as for record a2. *)
Lemma C7_detection_scores_witness :
  let m := (ReportDetails.render_report (H := TestHost.host) TestHost.a1
              (TestHost.constant (1 # 2))).1 in
  ReportDetails.detectGPT m = 80%Z /\
  ReportDetails.fastDetectGPT m = 82%Z /\
  (65 <= ReportDetails.detectGPT m <= 94)%Z /\
  (70 <= ReportDetails.fastDetectGPT m <= 94)%Z.
Proof.
  intros m.
  assert (double_draw (1 # 2)) as Hu
      by (split; [split; by compute | by vm_compute]).
  destruct (C7_detection_scores (H := TestHost.host) TestHost.a1 TestHost.a2
              (TestHost.constant (1 # 2)) Hu Hu)
    as (_ & _ & _ & _ & H1 & H2 & _).
  split; [reflexivity|]. split; [reflexivity|]. split; [exact H1 | exact H2].
Defined.

(** Record a2 (confidence 40) and record a1 (confidence 87) on a track of
    300 units: 120 and 261 units. *)
Lemma C6_confidence_bar_width_witness :
  let width r :=
    ReportDetails.used_width 300
      (ReportDetails.bar_width
         (ReportDetails.render_report (H := TestHost.host) r
                                      (TestHost.constant (1 # 2))).1) in
  (width TestHost.a2 <= width TestHost.a1)%Q /\
  (width TestHost.a2 == 120)%Q /\
  (width TestHost.a1 == 261)%Q.
Proof.
  intros width.
  assert (0 <= 300)%Q as Htrack by (by compute).
  assert (0 <= VerificationData.confidence TestHost.a2)%Q as Hlo by (by compute).
  assert (VerificationData.confidence TestHost.a2
          <= VerificationData.confidence TestHost.a1)%Q as Hle by (by compute).
  assert (VerificationData.confidence TestHost.a1 <= 100)%Q as Hhi by (by compute).
  destruct (C6_confidence_bar_width (H := TestHost.host)
              TestHost.a2 TestHost.a1
              (TestHost.constant (1 # 2)) (TestHost.constant (1 # 2)) 300
              Htrack Hlo Hle Hhi)
    as (Hmono & _).
  split; [exact Hmono|]. split; reflexivity.
Defined.

(** A confidence of 150 is styled as 150%: one and a half tracks. *)
Example confidence_bar_not_clamped :
  let r := VerificationData.mk (lit "x") [] true 150 None [] [] in
  let bar := ReportDetails.bar_width
               (ReportDetails.render_report (H := TestHost.host) r
                                            (TestHost.constant (1 # 2))).1 in
  bar = ReportDetails.Percent 150 /\
  (ReportDetails.used_width 300 bar == 450)%Q.
Proof. split; reflexivity. Qed.

Section DetailViewWords.
Import ReportDetails.
Context `{Host}.

Lemma shouldHighlight_spec u : shouldHighlight u = true <-> (7 # 10 < u)%Q.
Proof.
  unfold shouldHighlight. rewrite negb_true_iff, <- not_true_iff_false, Qle_bool_iff.
  split; [apply Qnot_le_lt | apply Qlt_not_le].
Qed.

(** A span carries the suspect class exactly when its draw exceeds 0.7 and
    the record is classified as machine-produced. *)
Lemma suspect_word_span is_ai word u :
  suspect (word_span is_ai word u) = shouldHighlight u && is_ai.
Proof.
  unfold suspect, word_span. cbn [className].
  by destruct (shouldHighlight u && is_ai).
Qed.

Lemma render_paragraph_draws is_ai index paragraph g :
  render_paragraph is_ai index paragraph g =
  (imap (fun j word => word_span is_ai word (draws g (cursor g + j)))
        (split SPACE paragraph),
   mkRng (draws g) (cursor g + length (split SPACE paragraph))).
Proof.
  unfold render_paragraph.
  by rewrite (imapR_one_draw _ (fun _ word u => word_span is_ai word u)).
Qed.

(** Over the paragraphs: the words, in reading order, take the draws in
    order, one each. *)
Lemma render_paragraphs_draws is_ai ps : forall index g,
  (imapR (render_paragraph is_ai) index ps g).2 =
    mkRng (draws g) (cursor g + length (concat (split SPACE <$> ps))) /\
  concat (imapR (render_paragraph is_ai) index ps g).1 =
    imap (fun k word => word_span is_ai word (draws g (cursor g + k)))
         (concat (split SPACE <$> ps)) /\
  (fmap text <$> (imapR (render_paragraph is_ai) index ps g).1) =
    (fmap (fun word => word ++ lit " ") <$> (split SPACE <$> ps)).
Proof.
  induction ps as [|p ps IH]; intros index g.
  - cbn. destruct g. cbn. by rewrite Nat.add_0_r.
  - rewrite imapR_cons, render_paragraph_draws. cbn [fst snd].
    destruct (IH (S index)
                 (mkRng (draws g) (cursor g + length (split SPACE p))))
      as (Hg & Hconcat & Htext).
    cbn [draws cursor] in Hg, Hconcat.
    rewrite fmap_cons. cbn [concat]. split_and!.
    + rewrite Hg, length_app. f_equal. lia.
    + rewrite Hconcat, imap_app. f_equal.
      apply imap_ext. intros k word _. cbn beta. do 2 f_equal. lia.
    + rewrite !fmap_cons, Htext. f_equal.
      rewrite fmap_imap. rewrite <- imap_const. by apply imap_ext.
Qed.

(** C9 (as the code has it).  The highlighted content has one span per
    word, the words being the pieces of the content between newlines
    (paragraphs) and, within a paragraph, between single space characters:
    no other white space separates words, and the empty piece between two
    spaces is a word.  The [k]-th word in reading order is marked
    as suspect exactly when its own draw (the [k]-th after the two score
    draws) exceeds 0.7 and the record is classified as machine-produced.
    So a word is marked only for a machine-produced record; for a
    human-produced record no word is marked, whatever the draws; and the
    draws of the unit interval that mark a word are those above 7/10, a
    stretch of length 3/10 (for a draw, being above 7/10 and being above
    the double literal 0.7 are the same). *)
Theorem C9_word_marks (r : VerificationData.t) (g : Rng) :
  let spans := paragraphs (render_report r g).1 in
  let words := split SPACE <$> split LF (VerificationData.content r) in
  let is_ai := VerificationData.is_ai_generated r in
  (fmap text <$> spans) = (fmap (fun word => word ++ lit " ") <$> words) /\
  suspect <$> concat spans =
    imap (fun k _ => shouldHighlight (draws g (cursor g + 2 + k)) && is_ai)
         (concat words) /\
  (forall s, s ∈ concat spans -> suspect s = true -> is_ai = true) /\
  (is_ai = false -> forall s, s ∈ concat spans -> suspect s = false) /\
  (forall u, unit_draw u ->
             (shouldHighlight u = true <-> (7 # 10 < u)%Q /\ (u < 1)%Q)) /\
  (1 - (7 # 10) == 3 # 10)%Q /\
  (forall u, double_draw u ->
             (shouldHighlight u = true <-> (Double.round (7 # 10) < u)%Q)).
Proof.
  intros spans words is_ai. subst spans.
  destruct (render_report_draws r g) as (_ & _ & _ & ->).
  destruct (render_paragraphs_draws is_ai (split LF (VerificationData.content r))
              0 (mkRng (draws g) (S (S (cursor g)))))
    as (_ & Hconcat & Htext).
  fold is_ai. cbn [draws cursor] in Hconcat. fold words in Hconcat, Htext.
  assert (suspect <$> concat (imapR (render_paragraph is_ai) 0
                                    (split LF (VerificationData.content r))
                                    (mkRng (draws g) (S (S (cursor g))))).1 =
          imap (fun k _ => shouldHighlight (draws g (cursor g + 2 + k)) && is_ai)
               (concat words)) as Hmarks.
  { rewrite Hconcat, fmap_imap. apply imap_ext. intros k word _. cbn.
    rewrite suspect_word_span. do 3 f_equal. lia. }
  assert (forall s,
             s ∈ concat (imapR (render_paragraph is_ai) 0
                               (split LF (VerificationData.content r))
                               (mkRng (draws g) (S (S (cursor g))))).1 ->
             exists u, suspect s = shouldHighlight u && is_ai) as Hone.
  { intros s Hs. rewrite Hconcat in Hs.
    apply list_elem_of_lookup in Hs as [k Hk].
    rewrite list_lookup_imap in Hk.
    destruct (concat words !! k) as [word|]; [|done].
    cbn in Hk. injection Hk as <-. eexists. apply suspect_word_span. }
  split; [done|]. split; [done|]. split; [|split; [|split; [|split]]].
  - intros s Hs Hsus. destruct (Hone s Hs) as [u Hu].
    rewrite Hu in Hsus. by apply andb_true_iff in Hsus as [_ ?].
  - intros Hhuman s Hs. destruct (Hone s Hs) as [u ->].
    rewrite Hhuman. apply andb_false_r.
  - intros u [_ Hlt]. rewrite shouldHighlight_spec. tauto.
  - reflexivity.
  - intros u Hu. rewrite shouldHighlight_spec. symmetry.
    by apply above_literal_0_7.
Qed.

End DetailViewWords.

(** With every draw at 4/5: both words of the machine-produced a1 are
    marked, the word of the human-produced a2 is not. *)
Lemma C9_word_marks_witness :
  let spans r :=
    ReportDetails.paragraphs
      (ReportDetails.render_report (H := TestHost.host) r
                                   (TestHost.constant (4 # 5))).1 in
  ReportDetails.suspect <$> concat (spans TestHost.a1) = [true; true] /\
  ReportDetails.suspect <$> concat (spans TestHost.a2) = [false] /\
  (forall s, s ∈ concat (spans TestHost.a2) -> ReportDetails.suspect s = false).
Proof.
  intros spans.
  split; [reflexivity|]. split; [reflexivity|].
  destruct (C9_word_marks (H := TestHost.host) TestHost.a2
                          (TestHost.constant (4 # 5)))
    as (_ & _ & _ & Hhuman & _).
  exact (Hhuman eq_refl).
Defined.

(** C9, as stated, fails for words separated by white space other than a
    space: in a content of two words with a tab between them the two words
    are one span, marked by one draw; the render takes three draws (two
    scores, one span), not four. *)
Lemma C9_words_separated_by_a_tab_share_a_draw :
  let r := VerificationData.mk (lit "t") [97; 9; 98]%N true 90 None [] [] in
  let rendered := ReportDetails.render_report (H := TestHost.host) r
                    (TestHost.constant (4 # 5)) in
  Observe.whitespace_words (VerificationData.content r) = [lit "a"; lit "b"] /\
  ReportDetails.paragraphs rendered.1 =
    [[ReportDetails.mkSpan ([97; 9; 98]%N ++ lit " ")
                           ReportDetails.suspect_class]] /\
  length (concat (ReportDetails.paragraphs rendered.1))
    <> length (Observe.whitespace_words (VerificationData.content r)) /\
  cursor rendered.2 = 3.
Proof. split_and!; [reflexivity | reflexivity | discriminate | reflexivity]. Qed.

(* ===================================================================== *)
(** ** The components run on the specification's example *)
(* ===================================================================== *)

Example split_keeps_empty_pieces :
  split SPACE (lit "a  b") = [lit "a"; []; lit "b"] /\
  split LF [] = [[]] /\
  split LF (lit "a" ++ [LF]) = [lit "a"; []].
Proof. split_and!; reflexivity. Qed.

Example substring_clamps_and_swaps :
  substring (lit "0.8f3a") 2 42 = lit "8f3a" /\
  substring (lit "abcdef") 4 1 = lit "bcd".
Proof. split; reflexivity. Qed.

(** Record a2 has no hash: its block gets a fabricated one, and that is the
    only draw the mapping takes. *)
Example blocks_of_the_example :
  let result :=
    BlockchainExplorer.loadUserVerifications (H := TestHost.host)
      (Some TestHost.alice) (TestHost.ok [TestHost.a1; TestHost.a2])
      (TestHost.constant (1 # 2)) BlockchainExplorer.initial in
  BlockchainExplorer.userBlocks result.1.1 =
    [Block.mk (lit "a1") (lit "0xabc") (lit "2024-01-02")
              (lit "ScanIt Node A") 1 confirmed;
     Block.mk (lit "a2") (lit "0x8f3a") (lit "2024-01-01")
              (lit "ScanIt Node B") 1 confirmed] /\
  cursor result.2 = 1 /\
  BlockchainExplorer.loading result.1.1 = false.
Proof. split_and!; reflexivity. Qed.

(** Before the effect ran the page shows the loading card; without an
    identity it asks for a login; a thrown read is logged and leaves the
    empty-list card. *)
Example list_view_placeholders :
  let g := TestHost.constant (1 # 2) in
  let m0 := BlockchainExplorer.mounted g in
  let m1 := BlockchainExplorer.run (H := TestHost.host) m0
              [BlockchainExplorer.UserChanged None (TestHost.ok [])] in
  let m2 := BlockchainExplorer.run (H := TestHost.host) m0
              [BlockchainExplorer.UserChanged (Some TestHost.alice)
                 (Thrown (lit "TypeError: Failed to fetch"))] in
  (BlockchainExplorer.panels (H := TestHost.host) m0).1
    = BlockchainExplorer.LoadingCard /\
  (BlockchainExplorer.panels (H := TestHost.host) m1).1
    = BlockchainExplorer.LoginRequired /\
  (BlockchainExplorer.panels (H := TestHost.host) m2).1
    = BlockchainExplorer.NoVerificationsYet /\
  BlockchainExplorer.emitted m2 =
    [BlockchainExplorer.list_query TestHost.alice;
     ConsoleError (lit "Error loading user verifications:")
                  (LoggedException (lit "TypeError: Failed to fetch"))].
Proof. split_and!; reflexivity. Qed.

(** A thrown read in the detail view is logged only: no toast and no
    navigation, unlike an error the client reports. *)
Example detail_view_thrown_read :
  let m := ReportDetails.run (H := TestHost.host) ReportDetails.mounted
             [ReportDetails.DepsChanged (Some (lit "a1")) (Some TestHost.alice)
                (Thrown (lit "TypeError: Failed to fetch"))] in
  ReportDetails.visible (ReportDetails.emitted m) = [] /\
  ReportDetails.screen (ReportDetails.state m) = ReportDetails.OnNotFound.
Proof. split; reflexivity. Qed.

(** Copying the hash of a loaded record puts exactly that string on the
    clipboard. *)
Example copy_hash_of_a1 :
  ReportDetails.copyHash (ReportDetails.mkState (Some TestHost.a1) false) =
  [ClipboardWrite (lit "0xabc");
   Toast (lit "Copied to clipboard")
         (lit "Blockchain hash copied successfully") None].
Proof. reflexivity. Qed.

(* ===================================================================== *)
(** ** The list view over whole histories *)
(* ===================================================================== *)

Section ImapRElements.
Context {A B : Type} (f : nat -> A -> Rng -> B * Rng).

(** What every call guarantees holds of every element of the result. *)
Lemma imapR_Forall (P : B -> Prop) index l g :
  (forall i x g', P (f i x g').1) -> Forall P (imapR f index l g).1.
Proof.
  intros HP. revert index g.
  induction l as [|x l IH]; intros index g; [constructor|].
  rewrite imapR_cons. cbn [fst]. constructor; [apply HP | apply IH].
Qed.

(** The element at position [k] is the result of the call on the [k]-th
    input, at index [index + k], on the source as the earlier calls left
    it. *)
Lemma imapR_lookup index l g k x :
  l !! k = Some x ->
  exists g', (imapR f index l g).1 !! k = Some (f (index + k) x g').1.
Proof.
  revert index g k. induction l as [|y l IH]; intros index g k Hk; [done|].
  rewrite imapR_cons. cbn [fst]. destruct k as [|k].
  - injection Hk as ->. exists g. by rewrite Nat.add_0_r.
  - destruct (IH (S index) (f index y g).2 k Hk) as [g' Hg'].
    exists g'. replace (index + S k) with (S index + k) by lia. exact Hg'.
Qed.

End ImapRElements.

Section ListViewHistories.
Import BlockchainExplorer Observe.
Context `{Host}.

Lemma run_cons m ev evs : run m (ev :: evs) = run (step m ev) evs.
Proof. reflexivity. Qed.

Lemma to_block_decorated index v g : decorated (to_block index v g).1.
Proof.
  unfold decorated. rewrite to_block_verifier.
  split_and!.
  - unfold to_block. by destruct (VerificationData.blockchain_hash v) as [[|]|].
  - unfold to_block. by destruct (VerificationData.blockchain_hash v) as [[|]|].
  - apply (list_elem_of_lookup_2 _ (index mod 3)). apply rotation_at.
  - unfold to_block, placeholder_hash.
    by destruct (VerificationData.blockchain_hash v) as [[|]|].
Qed.

(** The invariant: the stored blocks and the selected block are all built
    by [to_block]. *)
Lemma step_decorated m ev :
  Forall decorated (userBlocks (state m)) ->
  (forall b, selectedBlock (state m) = Some b -> decorated b) ->
  Forall decorated (userBlocks (state (step m ev))) /\
  (forall b, selectedBlock (state (step m ev)) = Some b -> decorated b).
Proof.
  intros Hblocks Hsel.
  destruct ev as [[u|] answer|s|index]; cbn [step on_user].
  - destruct answer as [[rows [e|]]|exn]; cbn; try done.
    pose proof (imapR_Forall to_block decorated 0 (default [] rows) (rng m)
                  to_block_decorated) as Hnew.
    by destruct (imapR to_block 0 (default [] rows) (rng m)).
  - done.
  - done.
  - destruct (render_list (user m) (state m)); try done.
    destruct (userBlocks (state m) !! index) as [b|] eqn:Hb; [|done].
    cbn. split; [done|]. intros b' [= <-].
    by eapply Forall_lookup_1.
Qed.

(** X1.  Whatever happens to the list view after mount (identity changes
    with reads that succeed, fail or throw; edits of the search field;
    clicks), every stored block and the selected block, if any, has exactly
    one transaction, status confirmed, a verifier label out of the rotation
    and a hash that is not empty. *)
Theorem X1_blocks_stay_decorated (g : Rng) (evs : list Event) :
  let m := run (mounted g) evs in
  Forall decorated (userBlocks (state m)) /\
  (forall b, selectedBlock (state m) = Some b -> decorated b) /\
  (forall b, b ∈ userBlocks (state m) ->
             Block.transactions b = 1 /\ Block.status b = confirmed).
Proof.
  cbn zeta.
  assert (forall m,
             Forall decorated (userBlocks (state m)) ->
             (forall b, selectedBlock (state m) = Some b -> decorated b) ->
             Forall decorated (userBlocks (state (run m evs))) /\
             (forall b, selectedBlock (state (run m evs)) = Some b -> decorated b))
    as Hrun.
  { induction evs as [|ev evs IH]; intros m Hb Hs; [done|].
    rewrite run_cons. destruct (step_decorated m ev Hb Hs). by apply IH. }
  destruct (Hrun (mounted g)) as [Hb Hs]; [constructor | done |].
  split_and!; [done | done |].
  intros b Hin. rewrite Forall_forall in Hb.
  destruct (Hb b Hin) as (? & ? & _). done.
Qed.

End ListViewHistories.

(** A run of the list view that selects a block: the selected block is
    decorated like the stored ones. *)
Lemma X1_blocks_stay_decorated_witness :
  let m := BlockchainExplorer.run (H := TestHost.host)
             (BlockchainExplorer.mounted (TestHost.constant (1 # 2)))
             [BlockchainExplorer.UserChanged (Some TestHost.alice)
                (TestHost.ok [TestHost.a1; TestHost.a2]);
              BlockchainExplorer.CardClick 1;
              BlockchainExplorer.UserChanged (Some TestHost.alice) TestHost.refused] in
  exists b, BlockchainExplorer.selectedBlock (BlockchainExplorer.state m) = Some b /\
            Block.id b = lit "a2" /\ Observe.decorated b.
Proof.
  intros m.
  destruct (X1_blocks_stay_decorated (H := TestHost.host)
              (TestHost.constant (1 # 2))
              [BlockchainExplorer.UserChanged (Some TestHost.alice)
                 (TestHost.ok [TestHost.a1; TestHost.a2]);
               BlockchainExplorer.CardClick 1;
               BlockchainExplorer.UserChanged (Some TestHost.alice) TestHost.refused])
    as (_ & Hsel & _).
  eexists. split; [reflexivity|]. split; [reflexivity|].
  apply Hsel. reflexivity.
Defined.

Section ListViewTraces.
Import BlockchainExplorer Observe.
Context `{Host}.

Lemma count_cons {A} (p : A -> bool) x l :
  count p (x :: l) = Nat.b2n (p x) + count p l.
Proof.
  unfold count. destruct (p x) eqn:Hp.
  - by rewrite filter_cons_True.
  - rewrite filter_cons_False; [done|]. by rewrite Hp.
Qed.

Lemma count_app {A} (p : A -> bool) l1 l2 :
  count p (l1 ++ l2) = count p l1 + count p l2.
Proof. unfold count. by rewrite filter_app, length_app. Qed.

(** What one event adds to the trace. *)
Lemma step_emitted m ev :
  exists effs,
    emitted (step m ev) = emitted m ++ effs /\
    forallb silent effs = true /\
    count is_read effs = Nat.b2n (identified ev) /\
    count is_log effs = Nat.b2n (failed_read ev).
Proof.
  destruct ev as [[u|] answer|s|index]; cbn [step on_user].
  - destruct answer as [[rows [e|]]|exn]; cbn.
    + eexists. split; [done|]. split_and!; try done.
    + destruct (imapR to_block 0 (default [] rows) (rng m)).
      eexists. split; [done|]. split_and!; try done.
    + eexists. split; [done|]. split_and!; try done.
  - exists []. cbn. by rewrite app_nil_r.
  - exists []. cbn. by rewrite app_nil_r.
  - exists []. rewrite app_nil_r. split; [|done].
    destruct (render_list (user m) (state m)); try done.
    by destruct (userBlocks (state m) !! index).
Qed.

(** X3.  The list view never shows a toast and never navigates: after any
    history its trace holds reads and console errors only, one read per
    run of the effect with an identity, and one console error per read
    that failed. *)
Theorem X3_list_view_trace (g : Rng) (evs : list Event) :
  let trace := emitted (run (mounted g) evs) in
  forallb silent trace = true /\
  count is_read trace = count identified evs /\
  count is_log trace = count failed_read evs.
Proof.
  cbn zeta.
  assert (forall m,
             forallb silent (emitted m) = true ->
             forallb silent (emitted (run m evs)) = true /\
             count is_read (emitted (run m evs))
               = count is_read (emitted m) + count identified evs /\
             count is_log (emitted (run m evs))
               = count is_log (emitted m) + count failed_read evs) as Hrun.
  { induction evs as [|ev evs IH]; intros m Hm.
    - cbn. by rewrite !Nat.add_0_r.
    - rewrite run_cons.
      destruct (step_emitted m ev) as (effs & Hem & Hsil & Hreads & Hlogs).
      destruct (IH (step m ev)) as (IH1 & IH2 & IH3).
      { rewrite Hem, forallb_app, Hm, Hsil. done. }
      rewrite IH2, IH3, Hem, !count_app, !count_cons, Hreads, Hlogs.
      split_and!; [done | lia | lia]. }
  destruct (Hrun (mounted g) eq_refl) as (? & ? & ?). done.
Qed.

Lemma step_selected m ev :
  is_card_click ev = false ->
  selectedBlock (state (step m ev)) = selectedBlock (state m).
Proof.
  destruct ev as [u answer|s|index]; [| done | done]. intros _.
  cbn [step].
  destruct u as [u|]; [|done].
  destruct answer as [[rows [e|]]|exn]; cbn; try done.
  by destruct (imapR to_block 0 (default [] rows) (rng m)).
Qed.

(** X4.  Only a click on a card changes the selection.  Once a block is
    selected, its details stay in the right column through every later
    re-fetch (successful or not), every sign-out and every edit of the
    search field, whether or not the block is still in the list. *)
Theorem X4_selection_survives_all_but_clicks
        (m : Mounted) (evs : list Event) (b : Block.t) :
  selectedBlock (state m) = Some b ->
  forallb (fun ev => negb (is_card_click ev)) evs = true ->
  let m' := run m evs in
  selectedBlock (state m') = Some b /\
  detail_panel (render (user m') (state m')) =
    BlockDetails (lit "Block #" ++ Block.id b) (Block.status b) (Block.hash b)
                 (toLocaleString (Block.timestamp b)) (Block.verifier b)
                 (nat_toString (Block.transactions b) ++ lit " verifications")
                 (Block.transactions b).
Proof.
  intros Hsel Hevs. cbn zeta.
  assert (selectedBlock (state (run m evs)) = Some b) as Hkept.
  { revert m Hsel. induction evs as [|ev evs IH]; intros m Hsel; [done|].
    cbn [forallb] in Hevs. apply andb_true_iff in Hevs as [Hev Hevs].
    rewrite run_cons. apply IH; [done|].
    rewrite step_selected; [done|]. by apply negb_true_iff. }
  split; [done|].
  unfold render, render_detail. cbn [detail_panel]. by rewrite Hkept.
Qed.

End ListViewTraces.

(** Alice selects block a2 and signs out: the page asks for a login, and
    the details of a2 are still in the right column. *)
Lemma X4_selection_survives_all_but_clicks_witness :
  let m := BlockchainExplorer.run (H := TestHost.host)
             (BlockchainExplorer.mounted (TestHost.constant (1 # 2)))
             [BlockchainExplorer.UserChanged (Some TestHost.alice)
                (TestHost.ok [TestHost.a1; TestHost.a2]);
              BlockchainExplorer.CardClick 1] in
  let m' := BlockchainExplorer.run (H := TestHost.host) m
              [BlockchainExplorer.UserChanged None (TestHost.ok [])] in
  (BlockchainExplorer.panels (H := TestHost.host) m').1
    = BlockchainExplorer.LoginRequired /\
  exists b, Block.id b = lit "a2" /\
            BlockchainExplorer.selectedBlock (BlockchainExplorer.state m') = Some b.
Proof.
  intros m m'. split; [reflexivity|].
  eexists. split; [|
    refine (proj1 (X4_selection_survives_all_but_clicks (H := TestHost.host) m
                     [BlockchainExplorer.UserChanged None (TestHost.ok [])]
                     _ eq_refl eq_refl))].
  reflexivity.
Defined.

Section ListViewCards.
Import BlockchainExplorer Observe.
Context `{Host}.

Lemma imap_positions {A} (l : list A) k :
  imap (fun j _ => k + j) l = seq k (length l).
Proof.
  revert k. induction l as [|x l IH]; intros k; [done|].
  cbn. rewrite Nat.add_0_r. f_equal.
  rewrite <- IH. apply imap_ext. intros j y _. cbn. lia.
Qed.

(** The cards shown for a stored list that is not empty. *)
Lemma render_list_cards u st b bs :
  loading st = false -> userBlocks st = b :: bs ->
  render_list (Some u) st = Cards (imap (card (selectedBlock st)) (b :: bs)).
Proof. unfold render_list. by intros -> ->. Qed.

(** X5.  When the cards are on screen and the stored blocks have pairwise
    different ids, a click on the card at position [i] selects its block
    and highlights that card and no other. *)
Theorem X5_click_highlights_one_card
        (m : Mounted) (u : User.t) (i : nat) (b : Block.t) :
  user m = Some u ->
  loading (state m) = false ->
  NoDup (Block.id <$> userBlocks (state m)) ->
  userBlocks (state m) !! i = Some b ->
  let m' := step m (CardClick i) in
  selectedBlock (state m') = Some b /\
  userBlocks (state m') = userBlocks (state m) /\
  exists cs,
    list_panel (render (user m') (state m')) = Cards cs /\
    length cs = length (userBlocks (state m)) /\
    (forall j c, cs !! j = Some c -> (highlighted c = true <-> j = i)).
Proof.
  intros Hu Hload Hnodup Hb.
  destruct (userBlocks (state m)) as [|b0 bs] eqn:Hblocks; [done|].
  assert (step m (CardClick i)
          = mkMounted (user m) (setSelectedBlock (Some b) (state m))
                      (rng m) (emitted m)) as Hstep.
  { cbn [step]. rewrite Hu, (render_list_cards u _ b0 bs) by done.
    by rewrite Hblocks, Hb. }
  cbn zeta. rewrite Hstep. cbn [state user].
  split; [done|]. split; [exact Hblocks|].
  exists (imap (card (Some b)) (b0 :: bs)). split_and!.
  - cbn [render list_panel]. rewrite Hu.
    by rewrite (render_list_cards u _ b0 bs).
  - by rewrite length_imap.
  - intros j c Hc. rewrite list_lookup_imap in Hc.
    destruct ((b0 :: bs) !! j) as [bj|] eqn:Hbj; [|done].
    injection Hc as <-. cbn [highlighted card].
    rewrite bool_decide_eq_true. cbn [fmap option_fmap option_map].
    split.
    + intros [= Hid].
      eapply (NoDup_lookup _ j i (Block.id bj) Hnodup).
      * by rewrite list_lookup_fmap, Hbj.
      * rewrite list_lookup_fmap, Hb. cbn. by rewrite Hid.
    + intros ->. rewrite Hb in Hbj. by injection Hbj as ->.
Qed.

End ListViewCards.

(** In the list of the example, a click on the second card highlights the
    second card only. *)
Lemma X5_click_highlights_one_card_witness :
  let m := BlockchainExplorer.run (H := TestHost.host)
             (BlockchainExplorer.mounted (TestHost.constant (1 # 2)))
             [BlockchainExplorer.UserChanged (Some TestHost.alice)
                (TestHost.ok [TestHost.a1; TestHost.a2])] in
  let m' := BlockchainExplorer.step (H := TestHost.host) m
              (BlockchainExplorer.CardClick 1) in
  exists cs,
    BlockchainExplorer.list_panel
      (BlockchainExplorer.render (H := TestHost.host)
         (BlockchainExplorer.user m') (BlockchainExplorer.state m'))
    = BlockchainExplorer.Cards cs /\
    BlockchainExplorer.highlighted <$> cs = [false; true].
Proof.
  intros m m'.
  assert (NoDup (Block.id <$> BlockchainExplorer.userBlocks
                                (BlockchainExplorer.state m))) as Hnodup.
  { apply NoDup_cons. split; [by intros [=]%list_elem_of_singleton|].
    apply NoDup_singleton. }
  destruct (X5_click_highlights_one_card (H := TestHost.host) m TestHost.alice 1
              (Block.mk (lit "a2") (lit "0x8f3a") (lit "2024-01-01")
                        (lit "ScanIt Node B") 1 confirmed)
              eq_refl eq_refl Hnodup eq_refl)
    as (_ & _ & cs & Hcs & _ & _).
  exists cs. split; [exact Hcs|].
  cbv in Hcs. injection Hcs as <-. reflexivity.
Defined.

Section ListViewHashes.
Import BlockchainExplorer Observe.
Context `{Host}.

(** A call of the mapping callback draws once for a record without a hash
    and not at all otherwise. *)
Lemma to_block_rng index v g :
  (to_block index v g).2 = mkRng (draws g) (cursor g + Nat.b2n (hashless v)).
Proof.
  unfold to_block, hashless, truthy.
  destruct (VerificationData.blockchain_hash v) as [[|c s]|]; cbn;
    destruct g as [d c0]; cbn; f_equal; lia.
Qed.

Lemma to_blocks_rng rows : forall index g,
  (imapR to_block index rows g).2 =
  mkRng (draws g) (cursor g + count hashless rows).
Proof.
  induction rows as [|v rows IH]; intros index g.
  - cbn. destruct g. cbn. f_equal. lia.
  - rewrite imapR_cons. cbn [snd]. rewrite IH, to_block_rng, count_cons.
    cbn [draws cursor]. f_equal. lia.
Qed.

(** Block [i] is made from record [i] with the source advanced by the
    records without a hash that come before it. *)
Lemma to_blocks_lookup rows : forall index g i v,
  rows !! i = Some v ->
  (imapR to_block index rows g).1 !! i =
  Some (to_block (index + i) v
          (mkRng (draws g) (cursor g + count hashless (take i rows)))).1.
Proof.
  induction rows as [|y rows IH]; intros index g i v Hi; [done|].
  rewrite imapR_cons. cbn [fst]. destruct i as [|i].
  - injection Hi as ->. cbn [take lookup list_lookup].
    rewrite Nat.add_0_r. do 3 f_equal.
    destruct g. cbn. f_equal. unfold count. cbn. lia.
  - cbn [lookup list_lookup]. cbn in Hi.
    rewrite (IH (S index) _ i v Hi), to_block_rng. cbn [draws cursor take].
    rewrite count_cons. do 3 f_equal; [lia | f_equal; lia].
Qed.

(** X6.  After a successful fetch, the block of a record that has a
    non-empty hash carries that hash unchanged.  The block of a record
    whose hash is absent or empty carries a fabricated one: "0x" followed
    by at most 40 code units taken from the base-16 text of a draw after
    its first two units; the draw is the next unused one, so the records
    without a hash use consecutive draws in list order, and the fetch
    consumes exactly as many draws as there are such records. *)
Theorem X6_block_hashes
        (u : User.t) (rows : list VerificationData.t) (g : Rng) (st : State) :
  let result :=
    loadUserVerifications (Some u) (Resolved (mkResponse (Some rows) None)) g st in
  (forall i v,
      rows !! i = Some v ->
      exists b,
        userBlocks result.1.1 !! i = Some b /\
        match VerificationData.blockchain_hash v with
        | Some (c :: s) => Block.hash b = c :: s
        | _ =>
            let d := draws g (cursor g + count hashless (take i rows)) in
            Block.hash b = lit "0x" ++ take 40 (drop 2 (Number_toString16 d)) /\
            2 <= length (Block.hash b) <= 42
        end) /\
  result.2 = mkRng (draws g) (cursor g + count hashless rows).
Proof.
  cbn zeta. rewrite loadUserVerifications_ok. cbn [fst snd userBlocks default].
  split; [|apply to_blocks_rng].
  intros i v Hi. eexists. split; [by apply to_blocks_lookup|].
  unfold to_block.
  destruct (VerificationData.blockchain_hash v) as [[|c s]|]; cbn [fst Block.hash];
    try done.
  all: cbn [Math_random draws cursor fst]; split; [done|];
    unfold placeholder_hash, substring; cbn [Block.hash];
    rewrite length_app, length_take;
    change (length (lit "0x")) with 2; change (Nat.max 2 42 - Nat.min 2 42) with 40;
    lia.
Qed.

(** X7.  A successful fetch of at least one record puts one card per
    record on the page, in the order of the records: card [j] has record
    [j]'s id as key and in its title, record [j]'s creation time in the
    locale's format, and position [j].  A successful fetch of no record
    (or of no data at all) puts the empty-list card there instead. *)
Theorem X7_cards_follow_records
        (m : Mounted) (u : User.t) (rows : list VerificationData.t) :
  let shown answer :=
    let m' := step m (UserChanged (Some u) (Resolved (mkResponse answer None))) in
    list_panel (render (user m') (state m')) in
  shown None = NoVerificationsYet /\
  shown (Some []) = NoVerificationsYet /\
  (rows <> [] ->
   exists cs,
     shown (Some rows) = Cards cs /\
     key <$> cs = VerificationData.id <$> rows /\
     title <$> cs = (fun v => lit "Block #" ++ VerificationData.id v) <$> rows /\
     time_text <$> cs =
       (fun v => toLocaleString (VerificationData.created_at v)) <$> rows /\
     position <$> cs = seq 0 (length rows)).
Proof.
  cbn zeta. cbn [step on_user]. rewrite !loadUserVerifications_ok.
  cbn [user state render list_panel default from_option].
  split; [done|]. split; [done|]. intros Hrows.
  change (Datatypes.id rows) with rows.
  set (blocks := (imapR to_block 0 rows (rng m)).1).
  assert (Block.id <$> blocks = VerificationData.id <$> rows) as Hid.
  { unfold blocks.
    rewrite (imapR_pure _ Block.id (fun _ v => VerificationData.id v));
      [apply imap_const | intros; apply to_block_id]. }
  assert (Block.timestamp <$> blocks = VerificationData.created_at <$> rows) as Hts.
  { unfold blocks.
    rewrite (imapR_pure _ Block.timestamp
                        (fun _ v => VerificationData.created_at v));
      [apply imap_const | intros; apply to_block_timestamp]. }
  assert (length blocks = length rows) as Hlen by apply imapR_length.
  clearbody blocks.
  exists (imap (card (selectedBlock (state m))) blocks). split_and!.
  - unfold render_list. cbn [loading userBlocks selectedBlock].
    destruct blocks as [|b bs]; [|done].
    destruct rows; [done | discriminate Hlen].
  - rewrite fmap_imap, <- Hid, <- imap_const. by apply imap_ext.
  - apply (f_equal (fmap (fun i => lit "Block #" ++ i))) in Hid.
    rewrite <- !list_fmap_compose in Hid.
    rewrite fmap_imap. etrans; [|exact Hid].
    rewrite <- imap_const. by apply imap_ext.
  - apply (f_equal (fmap toLocaleString)) in Hts.
    rewrite <- !list_fmap_compose in Hts.
    rewrite fmap_imap. etrans; [|exact Hts].
    rewrite <- imap_const. by apply imap_ext.
  - rewrite fmap_imap, <- Hlen, <- imap_positions. by apply imap_ext.
Qed.

End ListViewHashes.

(** In the example, a1 keeps its hash and a2, the only record without one,
    gets the first draw. *)
Lemma X6_block_hashes_witness :
  let result :=
    BlockchainExplorer.loadUserVerifications (H := TestHost.host)
      (Some TestHost.alice) (TestHost.ok [TestHost.a1; TestHost.a2])
      (TestHost.constant (1 # 2)) BlockchainExplorer.initial in
  (exists b, BlockchainExplorer.userBlocks result.1.1 !! 0 = Some b /\
             Block.hash b = lit "0xabc") /\
  cursor result.2 = 1.
Proof.
  intros result.
  destruct (X6_block_hashes (H := TestHost.host) TestHost.alice
              [TestHost.a1; TestHost.a2] (TestHost.constant (1 # 2))
              BlockchainExplorer.initial) as [Hhash Hrng].
  split.
  - destruct (Hhash 0 TestHost.a1 eq_refl) as (b & Hb & Hh).
    exists b. split; [exact Hb | exact Hh].
  - change (cursor result.2 = 1). unfold result, TestHost.ok.
    rewrite Hrng. reflexivity.
Defined.

(** The cards of the example: a1 before a2. *)
Lemma X7_cards_follow_records_witness :
  let m := BlockchainExplorer.mounted (TestHost.constant (1 # 2)) in
  let m' := BlockchainExplorer.step (H := TestHost.host) m
              (BlockchainExplorer.UserChanged (Some TestHost.alice)
                 (TestHost.ok [TestHost.a1; TestHost.a2])) in
  exists cs,
    BlockchainExplorer.list_panel
      (BlockchainExplorer.render (H := TestHost.host)
         (BlockchainExplorer.user m') (BlockchainExplorer.state m'))
    = BlockchainExplorer.Cards cs /\
    BlockchainExplorer.key <$> cs = [lit "a1"; lit "a2"] /\
    BlockchainExplorer.position <$> cs = [0; 1].
Proof.
  intros m m'.
  destruct (X7_cards_follow_records (H := TestHost.host) m TestHost.alice
              [TestHost.a1; TestHost.a2]) as (_ & _ & Hcards).
  destruct (Hcards ltac:(discriminate)) as (cs & Hcs & Hkey & _ & _ & Hpos).
  exists cs. split; [exact Hcs|]. split; [exact Hkey | exact Hpos].
Defined.

(* ===================================================================== *)
(** ** The detail view over whole histories *)
(* ===================================================================== *)

Section DetailViewHistories.
Import ReportDetails Observe.
Context `{Host}.

Lemma detail_run_cons m ev evs : run m (ev :: evs) = run (step m ev) evs.
Proof. reflexivity. Qed.

Lemma detail_run_snoc m evs ev : run m (evs ++ [ev]) = step (run m evs) ev.
Proof. unfold run. by rewrite foldl_app. Qed.

(** Clicks leave the hook state alone. *)
Lemma step_click_state m ev : is_deps ev = false -> state (step m ev) = state m.
Proof.
  destruct ev; [done | | |]; intros _; cbn [step];
    by destruct (screen (state m)).
Qed.

(** X9.  The buttons of the detail view never change what it displays:
    after any history the hook state (the record and the loading flag) is
    the one reached by the changes of the dependencies alone, with every
    click on Back, Download and Copy left out. *)
Theorem X9_clicks_leave_state (evs : list Event) :
  state (run mounted evs)
  = state (run mounted (filter (fun ev => is_deps ev = true) evs)).
Proof.
  assert (forall m m', state m = state m' ->
                       state (run m evs)
                       = state (run m' (filter (fun ev => is_deps ev = true) evs)))
    as Hrun.
  { induction evs as [|ev evs IH]; intros m m' Hst; [done|].
    rewrite detail_run_cons. destruct (is_deps ev) eqn:Hev.
    - rewrite filter_cons_True by done. rewrite detail_run_cons.
      apply IH. destruct ev; try done. cbn [step]. rewrite Hst.
      by destruct (on_deps id0 user0 answer (state m')).
    - rewrite filter_cons_False by (by rewrite Hev).
      apply IH. by rewrite step_click_state. }
  by apply Hrun.
Qed.

(** What one event adds to the trace keeps object URLs paired. *)
Lemma step_urls m ev :
  exists effs,
    emitted (step m ev) = emitted m ++ effs /\
    count is_created effs = count is_revoked effs.
Proof.
  destruct ev as [i u answer| | |]; cbn [step].
  - unfold on_deps. destruct (truthy i && bool_decide (is_Some u)).
    + destruct answer as [[d [e|]]|exn]; cbn; by eexists.
    + exists []. cbn. by rewrite app_nil_r.
  - destruct (screen (state m)); [exists []; by rewrite app_nil_r | |];
      by eexists.
  - destruct (screen (state m)); try (exists []; by rewrite app_nil_r).
    eexists. split; [done|]. unfold downloadReport.
    by destruct (report (state m)).
  - destruct (screen (state m)); try (exists []; by rewrite app_nil_r).
    eexists. split; [done|]. unfold copyHash.
    destruct (report (state m)) as [r|]; [|done].
    by destruct (VerificationData.blockchain_hash r) as [[|]|].
Qed.

(** X10.  The detail view leaks no object URL: after any history its trace
    holds as many revocations as creations (every download creates one URL
    for its blob and revokes it after the click on the anchor). *)
Theorem X10_object_urls_are_revoked (evs : list Event) :
  count is_created (emitted (run mounted evs))
  = count is_revoked (emitted (run mounted evs)).
Proof.
  assert (forall m,
             count is_created (emitted m) = count is_revoked (emitted m) ->
             count is_created (emitted (run m evs))
             = count is_revoked (emitted (run m evs))) as Hrun.
  { induction evs as [|ev evs IH]; intros m Hm; [done|].
    rewrite detail_run_cons. apply IH.
    destruct (step_urls m ev) as (effs & -> & Heffs).
    rewrite !count_app. lia. }
  by apply Hrun.
Qed.

End DetailViewHistories.

Section DetailViewExports.
Import ReportDetails Observe.
Context `{Host}.

Lemma delivered_snoc r evs ev : delivered r evs -> delivered r (evs ++ [ev]).
Proof.
  intros (i & u & Hg & Hin). exists i, u. split; [done|].
  apply elem_of_app. by left.
Qed.

Lemma exports_only_delivered_snoc evs ev e :
  exports_only_delivered evs e -> exports_only_delivered (evs ++ [ev]) e.
Proof.
  destruct e; cbn; try done.
  - intros (Hne & r & Hr & Hh). split; [done|]. exists r. split; [|done].
    by apply delivered_snoc.
  - intros (r & Hr & Hb & Hn). exists r. split; [|done].
    by apply delivered_snoc.
Qed.

Lemma screen_on_report st :
  screen st = OnReport -> exists r, report st = Some r.
Proof.
  unfold screen. destruct (loading st); [done|].
  destruct (report st) as [r|]; [eauto | done].
Qed.

(** One more event keeps the two facts: the record in the slot was
    delivered, and the trace exports delivered records only. *)
Lemma step_exports evs ev :
  (forall r, report (state (run mounted evs)) = Some r -> delivered r evs) ->
  Forall (exports_only_delivered evs) (emitted (run mounted evs)) ->
  (forall r, report (state (step (run mounted evs) ev)) = Some r ->
             delivered r (evs ++ [ev])) /\
  Forall (exports_only_delivered (evs ++ [ev]))
         (emitted (step (run mounted evs) ev)).
Proof.
  set (m := run mounted evs). intros Hslot Htrace.
  assert (Forall (exports_only_delivered (evs ++ [ev])) (emitted m)) as Hold.
  { eapply Forall_impl; [exact Htrace|]. intros e. apply exports_only_delivered_snoc. }
  assert (forall r, report (state m) = Some r -> delivered r (evs ++ [ev])) as Hslot'.
  { intros r Hr. by apply delivered_snoc, Hslot. }
  destruct ev as [i u answer| | |]; cbn [step].
  - unfold on_deps. destruct (truthy i && bool_decide (is_Some u)) eqn:Hguard.
    + destruct answer as [[d [e|]]|exn]; cbn [loadReportDetails error data state emitted
                                               setLoading setReport report].
      * split; [done|]. apply Forall_app. split; [done|].
        repeat constructor.
      * split.
        -- intros r ->. exists i, u. split; [done|].
           apply elem_of_app. right. by apply list_elem_of_singleton.
        -- apply Forall_app. split; [done|]. repeat constructor.
      * split; [done|]. apply Forall_app. split; [done|]. repeat constructor.
    + cbn. by rewrite app_nil_r.
  - destruct (screen (state m)); [done | |];
      (split; [done|]; apply Forall_app; split; [done|]; by repeat constructor).
  - destruct (screen (state m)) eqn:Hscreen; try done.
    split; [done|]. apply Forall_app. split; [done|].
    destruct (screen_on_report _ Hscreen) as [r Hr].
    unfold downloadReport. rewrite Hr.
    repeat constructor. exists r. split; [by apply Hslot' | done].
  - destruct (screen (state m)) eqn:Hscreen; try done.
    split; [done|]. apply Forall_app. split; [done|].
    destruct (screen_on_report _ Hscreen) as [r Hr].
    unfold copyHash. rewrite Hr.
    destruct (VerificationData.blockchain_hash r) as [[|c s]|] eqn:Hhash;
      repeat constructor; try done.
    exists r. split; [by apply Hslot' | done].
Qed.

(** X11.  Nothing leaves the detail view but what the data store
    delivered to it.  After any history: the record in the view's slot was
    delivered by a read of that history that was issued with both
    identities present and settled without error; every text written to
    the clipboard is the non-empty hash of such a record; every file handed
    to the browser is the report of such a record under that record's file
    name; and every navigation goes to the list route. *)
Theorem X11_only_delivered_records_leave (evs : list Event) :
  let m := run mounted evs in
  (forall r, report (state m) = Some r -> delivered r evs) /\
  Forall (exports_only_delivered evs) (emitted m).
Proof.
  cbn zeta. induction evs as [|ev evs IH] using rev_ind.
  - split; [done | constructor].
  - destruct IH as [Hslot Htrace]. rewrite detail_run_snoc.
    by apply step_exports.
Qed.

End DetailViewExports.

(** Alice loads a1 and copies its hash: the text on the clipboard is the
    hash of the record the read delivered. *)
Lemma X11_only_delivered_records_leave_witness :
  let evs :=
    [ReportDetails.DepsChanged (Some (lit "a1")) (Some TestHost.alice)
                               (TestHost.ok TestHost.a1);
     ReportDetails.ClickCopy] in
  Observe.delivered TestHost.a1 evs /\
  ReportDetails.report
    (ReportDetails.state
       (ReportDetails.run (H := TestHost.host) ReportDetails.mounted evs))
  = Some TestHost.a1.
Proof.
  intros evs.
  assert (ReportDetails.report
            (ReportDetails.state
               (ReportDetails.run (H := TestHost.host) ReportDetails.mounted evs))
          = Some TestHost.a1) as Hslot by reflexivity.
  split; [|exact Hslot].
  exact (proj1 (X11_only_delivered_records_leave (H := TestHost.host) evs)
               TestHost.a1 Hslot).
Defined.

(* ===================================================================== *)
(** ** Splitting the content *)
(* ===================================================================== *)

Section Split.
Import Observe.

Lemma split_cons_sep sep s : split sep (sep :: s) = [] :: split sep s.
Proof. cbn. by rewrite N.eqb_refl. Qed.

Lemma split_cons_other sep c s :
  c <> sep ->
  exists w ws, split sep s = w :: ws /\ split sep (c :: s) = (c :: w) :: ws.
Proof.
  intros Hc. cbn [split].
  destruct (N.eqb_spec c sep) as [|_]; [done|].
  assert (split sep s <> []) as Hne.
  { destruct s as [|x s]; cbn; [done|].
    destruct (x =? sep)%N; [done|]. by destruct (split sep s). }
  destruct (split sep s) as [|w ws]; [done|]. eauto.
Qed.

Lemma occurrences_cons c x s :
  occurrences c (x :: s) = Nat.b2n (bool_decide (x = c)) + occurrences c s.
Proof.
  unfold occurrences, jsstring. rewrite filter_cons.
  destruct (decide (x = c)) as [Hx|Hx].
  - by rewrite bool_decide_true.
  - by rewrite bool_decide_false.
Qed.

(** Joining the pieces with the separator gives the string back. *)
Lemma split_join sep s :
  concat ((fun w => w ++ [sep]) <$> split sep s) = s ++ [sep].
Proof.
  induction s as [|c s IH]; [done|].
  destruct (decide (c = sep)) as [->|Hc].
  - rewrite split_cons_sep. cbn. by rewrite IH.
  - destruct (split_cons_other sep c s Hc) as (w & ws & Hs & ->).
    rewrite Hs in IH. cbn in *. by rewrite IH.
Qed.

(** One piece more than there are separators. *)
Lemma split_length sep s : length (split sep s) = S (occurrences sep s).
Proof.
  induction s as [|c s IH]; [done|].
  rewrite occurrences_cons.
  destruct (decide (c = sep)) as [->|Hc].
  - rewrite split_cons_sep, bool_decide_true by done. cbn. by rewrite IH.
  - destruct (split_cons_other sep c s Hc) as (w & ws & Hs & ->).
    rewrite Hs in IH. rewrite bool_decide_false by done. cbn in *. lia.
Qed.

(** No piece holds the separator, and a piece holds units of the string
    only. *)
Lemma split_pieces sep s p :
  p ∈ split sep s -> (sep ∉ p) /\ (forall c, c ∈ p -> c ∈ s).
Proof.
  revert p. induction s as [|c s IH]; intros p Hp.
  - apply list_elem_of_singleton in Hp as ->. split; [apply not_elem_of_nil | auto].
  - destruct (decide (c = sep)) as [->|Hc].
    + rewrite split_cons_sep in Hp. apply elem_of_cons in Hp as [->|Hp].
      * split; [apply not_elem_of_nil | intros x Hx; inversion Hx].
      * destruct (IH p Hp) as [Hno Hsub]. split; [done|].
        intros x Hx. apply elem_of_cons. right. by apply Hsub.
    + destruct (split_cons_other sep c s Hc) as (w & ws & Hs & Hcs).
      rewrite Hcs in Hp. rewrite Hs in IH.
      apply elem_of_cons in Hp as [->|Hp].
      * destruct (IH w) as [Hno Hsub]; [by left|]. split.
        -- intros [?|?]%elem_of_cons; [by subst | done].
        -- intros x [->|Hx]%elem_of_cons; [by left|].
           apply elem_of_cons. right. by apply Hsub.
      * destruct (IH p) as [Hno Hsub]; [by right|]. split; [done|].
        intros x Hx. apply elem_of_cons. right. by apply Hsub.
Qed.

(** The words of a content: one more than it has spaces and newlines. *)
Lemma words_length s :
  length (concat (split SPACE <$> split LF s))
  = S (occurrences SPACE s + occurrences LF s).
Proof.
  induction s as [|c s IH]; [done|].
  rewrite !occurrences_cons.
  destruct (decide (c = LF)) as [->|Hc].
  - rewrite split_cons_sep. cbn [fmap list_fmap concat].
    rewrite length_app, IH.
    rewrite (bool_decide_false (LF = SPACE)) by done.
    rewrite (bool_decide_true (LF = LF)) by done. cbn. lia.
  - destruct (split_cons_other LF c s Hc) as (p & ps & Hs & ->).
    rewrite Hs in IH. cbn [fmap list_fmap concat] in *.
    rewrite length_app in *. rewrite !split_length in *.
    rewrite occurrences_cons, (bool_decide_false (c = LF)) by done. cbn. lia.
Qed.

End Split.

Section DetailViewContent.
Import ReportDetails Observe.
Context `{Host}.

Lemma render_report_rng r g :
  (render_report r g).2 =
  (imapR (render_paragraph (VerificationData.is_ai_generated r)) 0
         (split LF (VerificationData.content r))
         (mkRng (draws g) (S (S (cursor g))))).2.
Proof.
  unfold render_report, Math_random. cbn [draws cursor].
  by destruct (imapR _ _ _ _).
Qed.

Lemma render_report_texts r g :
  (fmap text <$> paragraphs (render_report r g).1) =
  (fmap (fun word => word ++ lit " ")
     <$> (split SPACE <$> split LF (VerificationData.content r))).
Proof.
  destruct (render_report_draws r g) as (_ & _ & _ & ->).
  apply render_paragraphs_draws.
Qed.

(** X12.  The highlighted content shows the record's content and nothing
    else: there is one paragraph per line of the content (one more than it
    has newlines); the texts of the spans of a paragraph, put together, are
    that line followed by one space; and the lines, each followed by a
    newline, are the content followed by a newline. *)
Theorem X12_highlighted_text_is_the_content (r : VerificationData.t) (g : Rng) :
  let shown := paragraphs (render_report r g).1 in
  let lines := split LF (VerificationData.content r) in
  length shown = S (occurrences LF (VerificationData.content r)) /\
  (fun spans => concat (text <$> spans)) <$> shown
    = (fun line => line ++ lit " ") <$> lines /\
  concat ((fun line => line ++ [LF]) <$> lines)
    = VerificationData.content r ++ [LF].
Proof.
  cbn zeta. pose proof (render_report_texts r g) as Htexts.
  split_and!.
  - apply (f_equal length) in Htexts. rewrite !length_fmap in Htexts.
    by rewrite Htexts, split_length.
  - apply (f_equal (fmap (fun l : list jsstring => concat l))) in Htexts.
    rewrite <- !list_fmap_compose in Htexts.
    etrans; [exact Htexts|].
    apply list_fmap_ext. intros _ line _. cbn.
    apply (split_join SPACE line).
  - apply split_join.
Qed.

(** X13.  A render of the loading markup or of the not-found markup takes
    no random draw.  A render of a loaded report takes three draws plus one
    per space and per newline of the content: two for the scores and one
    for each word.  In every case the draws themselves are left as they
    are; only the position moves. *)
Theorem X13_draws_taken_by_a_render (st : State) (g : Rng) :
  let g' := (render st g).2 in
  draws g' = draws g /\
  cursor g' =
    cursor g +
    match screen st, report st with
    | OnReport, Some r =>
        3 + occurrences SPACE (VerificationData.content r)
          + occurrences LF (VerificationData.content r)
    | _, _ => 0
    end.
Proof.
  cbn zeta. unfold render, screen.
  destruct (loading st); [cbn; split; [done | lia]|].
  destruct (report st) as [r|]; [|cbn; split; [done | lia]].
  pose proof (render_report_rng r g) as Hrng.
  destruct (render_report r g) as [m g']. cbn [fst snd] in *.
  rewrite Hrng.
  destruct (render_paragraphs_draws (VerificationData.is_ai_generated r)
              (split LF (VerificationData.content r)) 0
              (mkRng (draws g) (S (S (cursor g))))) as (-> & _ & _).
  cbn [draws cursor]. rewrite words_length. split; [done | lia].
Qed.

(** X14.  Every span of the highlighted content shows a word followed by
    one space, where the word is a run of code units of the content with
    neither a space nor a newline in it (possibly empty, between two
    spaces). *)
Theorem X14_spans_show_words (r : VerificationData.t) (g : Rng)
        (spans : list Span) (s : Span) :
  spans ∈ paragraphs (render_report r g).1 ->
  s ∈ spans ->
  exists word,
    text s = word ++ [SPACE] /\
    (SPACE ∉ word) /\
    (LF ∉ word) /\
    (forall c, c ∈ word -> c ∈ VerificationData.content r).
Proof.
  intros Hspans Hs.
  pose proof (render_report_texts r g) as Htexts.
  assert ((text <$> spans) ∈ (fmap text <$> paragraphs (render_report r g).1))
    as Hin by (by apply list_elem_of_fmap_2).
  rewrite Htexts in Hin.
  apply list_elem_of_fmap in Hin as (words & Hwords & Hin).
  apply list_elem_of_fmap in Hin as (line & -> & Hline).
  assert (text s ∈ text <$> spans) as Hts by (by apply list_elem_of_fmap_2).
  rewrite Hwords in Hts.
  apply list_elem_of_fmap in Hts as (word & Hword & Hin).
  destruct (split_pieces LF _ _ Hline) as [HnoLF Hsub].
  destruct (split_pieces SPACE _ _ Hin) as [Hnosp Hsub'].
  exists word. split_and!; auto.
Qed.

End DetailViewContent.

(** The content of a1, "first line": one paragraph of two spans, and four
    draws for a render. *)
Lemma X14_spans_show_words_witness :
  let m := (ReportDetails.render_report (H := TestHost.host) TestHost.a1
              (TestHost.constant (4 # 5))).1 in
  exists spans s word,
    ReportDetails.paragraphs m = [spans] /\
    spans !! 1 = Some s /\
    ReportDetails.text s = word ++ [SPACE] /\
    (SPACE ∉ word).
Proof.
  intros m.
  set (spans := [ReportDetails.word_span true (lit "first") (4 # 5);
                 ReportDetails.word_span true (lit "line") (4 # 5)]).
  set (s := ReportDetails.word_span true (lit "line") (4 # 5)).
  assert (spans ∈ ReportDetails.paragraphs m) as Hspans
      by (apply list_elem_of_singleton; reflexivity).
  assert (s ∈ spans) as Hs by (right; left).
  destruct (X14_spans_show_words (H := TestHost.host) TestHost.a1
              (TestHost.constant (4 # 5)) spans s Hspans Hs)
    as (word & Htext & Hnosp & _ & _).
  exists spans, s, word.
  split; [reflexivity|]. split; [reflexivity|]. split; [exact Htext | exact Hnosp].
Defined.

Section ListViewIdentities.
Import BlockchainExplorer Observe.
Context `{Host}.

(** X15.  The stored blocks outlive the identity they were fetched for.  A
    sign-out replaces the cards by the login prompt but leaves the blocks
    stored; when an identity then signs in and its read fails, the page
    shows the cards of the blocks stored before, fetched for the earlier
    identity. *)
Theorem X15_blocks_outlive_the_identity
        (m : Mounted) (u' : User.t)
        (ignored answer : Settled (list VerificationData.t)) (payload : Logged) :
  userBlocks (state m) <> [] ->
  failure answer = Some payload ->
  let out := step m (UserChanged None ignored) in
  let back := step out (UserChanged (Some u') answer) in
  list_panel (render (user out) (state out)) = LoginRequired /\
  userBlocks (state out) = userBlocks (state m) /\
  emitted out = emitted m /\
  userBlocks (state back) = userBlocks (state m) /\
  list_panel (render (user back) (state back)) =
    Cards (imap (card (selectedBlock (state m))) (userBlocks (state m))).
Proof.
  intros Hblocks Hfail. cbn zeta. cbn [step on_user rng state user emitted].
  destruct (loadUserVerifications_failed u' answer (rng m)
              (setLoading false (state m)) payload Hfail) as [msg ->].
  cbn [state user emitted rng render list_panel].
  unfold render_list. cbn [setLoading loading userBlocks selectedBlock].
  rewrite app_nil_r.
  destruct (userBlocks (state m)) as [|b bs]; done.
Qed.

End ListViewIdentities.

(** Alice's blocks are on the page of the identity that signs in after her
    and whose read is refused. *)
Lemma X15_blocks_outlive_the_identity_witness :
  let m := BlockchainExplorer.run (H := TestHost.host)
             (BlockchainExplorer.mounted (TestHost.constant (1 # 2)))
             [BlockchainExplorer.UserChanged (Some TestHost.alice)
                (TestHost.ok [TestHost.a1; TestHost.a2])] in
  let back := BlockchainExplorer.run (H := TestHost.host) m
                [BlockchainExplorer.UserChanged None (TestHost.ok []);
                 BlockchainExplorer.UserChanged (Some (User.mk (lit "V")))
                                                TestHost.refused] in
  Block.id <$> BlockchainExplorer.userBlocks (BlockchainExplorer.state back)
  = [lit "a1"; lit "a2"].
Proof.
  intros m back.
  assert (BlockchainExplorer.userBlocks (BlockchainExplorer.state m) <> [])
    as Hne by discriminate.
  destruct (X15_blocks_outlive_the_identity (H := TestHost.host) m
              (User.mk (lit "V")) (TestHost.ok []) TestHost.refused
              (LoggedError (mkError (lit "500") (lit "unavailable")))
              Hne eq_refl)
    as (_ & _ & _ & Hback & _).
  change (Block.id <$> BlockchainExplorer.userBlocks
                         (BlockchainExplorer.state back)
          = Block.id <$> BlockchainExplorer.userBlocks (BlockchainExplorer.state m)).
  unfold back. cbn [BlockchainExplorer.run foldl].
  by rewrite Hback.
Defined.

(* ===================================================================== *)
(** ** The list view with reads in flight *)
(* ===================================================================== *)

Section ListViewInFlight.
Import BlockchainExplorer Observe.
Context `{Host}.

(** The function of the source is the read followed by its continuation. *)
Lemma loadUserVerifications_resume u answer g st :
  loadUserVerifications (Some u) answer g st =
  ((resume answer g st).1.1,
   list_query u :: (resume answer g st).1.2,
   (resume answer g st).2).
Proof.
  destruct answer as [[rows [e|]]|exn]; cbn; try done.
  by destruct (imapR to_block 0 (default [] rows) g).
Qed.

(** [step] is the machine with reads in flight when each answer arrives
    right after its read was issued. *)
Lemma step_is_issue_then_settle m u answer waiting :
  step m (UserChanged (Some u) answer) =
  now (live_run (mkLive m waiting)
                [Identity (Some u); Settles (length waiting) answer]).
Proof.
  cbn [live_run foldl live_step inflight now].
  rewrite (list_lookup_middle waiting [] u (length waiting)) by done.
  cbn [step on_user user state rng emitted].
  rewrite loadUserVerifications_resume.
  destruct (resume answer (rng m) (state m)) as [[st effs] g].
  cbn [fst snd now]. by rewrite <- app_assoc.
Qed.



Lemma live_run_cons l sig sigs :
  live_run l (sig :: sigs) = live_run (live_step l sig) sigs.
Proof. reflexivity. Qed.






End ListViewInFlight.



Section ListViewLoading.
Import BlockchainExplorer Observe.
Context `{Host}.

Lemma resume_loading answer g st : loading (resume answer g st).1.1 = false.
Proof.
  destruct answer as [[rows [e|]]|exn]; cbn; try done.
  by destruct (imapR to_block 0 (default [] rows) g).
Qed.

(** A signal that is neither a sign-out nor an answer leaves the loading
    flag as it is. *)
Lemma live_step_loading_kept l sig :
  may_clear_loading sig = false ->
  loading (state (now (live_step l sig))) = loading (state (now l)).
Proof.
  destruct sig as [[u|]|k answer|s|index]; try done; intros _; cbn [live_step].
  cbn [now step].
  destruct (render_list (user (now l)) (state (now l))); try done.
  by destruct (userBlocks (state (now l)) !! index).
Qed.

(** No signal sets the loading flag. *)
Lemma live_step_loading_off l sig :
  loading (state (now l)) = false ->
  loading (state (now (live_step l sig))) = false.
Proof.
  intros Hoff. destruct (may_clear_loading sig) eqn:Hsig.
  - destruct sig as [[u|]|k answer|s|index]; try done; cbn [live_step].
    destruct (inflight l !! k); [|done].
    pose proof (resume_loading answer (rng (now l)) (state (now l))) as Hr.
    by destruct (resume answer (rng (now l)) (state (now l))) as [[st effs] g].
  - by rewrite live_step_loading_kept.
Qed.

(** X2.  The list view shows its loading placeholder from mount until a
    read settles or the effect runs without an identity, and never again.
    Issuing a read does not clear the loading flag: as long as no read has
    settled and no sign-out has occurred the flag is true, however many
    reads are in flight and whatever else happens.  A sign-out clears it; a
    read in flight that settles clears it, whatever its answer; and once it
    is cleared no later event (not even a new read) sets it again. *)
Theorem X2_list_loading_until_settled_or_signed_out
        (g : Rng) (l : Live) (before later : list Signal)
        (k : nat) (u : User.t) (answer : Settled (list VerificationData.t)) :
  (forallb (fun sig => negb (may_clear_loading sig)) before = true ->
   loading (state (now (live_run (live_mounted g) before))) = true) /\
  loading (state (now (live_step l (Identity None)))) = false /\
  (inflight l !! k = Some u ->
   loading (state (now (live_step l (Settles k answer)))) = false) /\
  (loading (state (now l)) = false ->
   loading (state (now (live_run l later))) = false).
Proof.
  split_and!.
  - assert (forall l0,
               forallb (fun sig => negb (may_clear_loading sig)) before = true ->
               loading (state (now (live_run l0 before)))
               = loading (state (now l0))) as Hkept.
    { induction before as [|sig sigs IH]; intros l0 Hsigs; [done|].
      cbn [forallb] in Hsigs. apply andb_true_iff in Hsigs as [Hsig Hsigs].
      rewrite live_run_cons, IH by done.
      apply live_step_loading_kept. by apply negb_true_iff. }
    intros Hb. by rewrite Hkept.
  - done.
  - intros Hk. cbn [live_step]. rewrite Hk.
    pose proof (resume_loading answer (rng (now l)) (state (now l))) as Hr.
    by destruct (resume answer (rng (now l)) (state (now l))) as [[st effs] g'].
  - revert l. induction later as [|sig sigs IH]; intros l Hoff; [done|].
    rewrite live_run_cons. apply IH. by apply live_step_loading_off.
Qed.

End ListViewLoading.

(** Alice's read is in flight and she types and clicks: still loading.
    Then the read is refused: not loading any more. *)
Lemma X2_list_loading_until_settled_or_signed_out_witness :
  let before := [BlockchainExplorer.Identity (Some TestHost.alice);
                 BlockchainExplorer.Edits (lit "a1");
                 BlockchainExplorer.Clicks 0] in
  let l := BlockchainExplorer.live_run (H := TestHost.host)
             (BlockchainExplorer.live_mounted (TestHost.constant (1 # 2))) before in
  BlockchainExplorer.inflight l = [TestHost.alice] /\
  BlockchainExplorer.loading (BlockchainExplorer.state (BlockchainExplorer.now l))
    = true /\
  BlockchainExplorer.loading
    (BlockchainExplorer.state
       (BlockchainExplorer.now
          (BlockchainExplorer.live_step (H := TestHost.host) l
             (BlockchainExplorer.Settles 0 TestHost.refused)))) = false.
Proof.
  intros before l.
  destruct (X2_list_loading_until_settled_or_signed_out (H := TestHost.host)
              (TestHost.constant (1 # 2)) l before [] 0 TestHost.alice
              TestHost.refused)
    as (Hloading & _ & Hsettled & _).
  split; [reflexivity|]. split; [exact (Hloading eq_refl) | exact (Hsettled eq_refl)].
Defined.

(* ===================================================================== *)
(** ** The detail view with reads in flight *)
(* ===================================================================== *)

Section DetailViewInFlight.
Import ReportDetails Observe.
Context `{Host}.

(** The function of the source is the read followed by its continuation. *)
Lemma loadReportDetails_resume i u answer st :
  loadReportDetails i u answer st =
  ((resume answer st).1, detail_query i u :: (resume answer st).2).
Proof. by destruct answer as [[d [e|]]|exn]. Qed.

(** [step] is the machine with reads in flight when each answer arrives
    right after its read was issued. *)
Lemma detail_step_is_issue_then_settle m i u answer n :
  step m (DepsChanged i u answer) =
  now (if truthy i && bool_decide (is_Some u)
       then live_run (mkLive m n) [Deps i u; Settles answer]
       else live_step (mkLive m n) (Deps i u)).
Proof.
  cbn [step live_run foldl live_step now]. unfold on_deps.
  destruct (truthy i && bool_decide (is_Some u)).
  - cbn [inflight now state emitted id user].
    rewrite loadReportDetails_resume.
    destruct (resume answer (state m)) as [st effs].
    cbn [fst snd now]. by rewrite <- app_assoc.
  - cbn [now]. by rewrite app_nil_r.
Qed.

Lemma detail_resume_loading answer st : loading (resume answer st).1 = false.
Proof. by destruct answer as [[d [e|]]|exn]. Qed.

Lemma detail_live_run_cons l sig sigs :
  live_run l (sig :: sigs) = live_run (live_step l sig) sigs.
Proof. reflexivity. Qed.

Lemma detail_click_state m button :
  state (step m button) = state m \/ exists i u answer, button = DepsChanged i u answer.
Proof.
  destruct button as [i u answer| | |]; [right; eauto | | |]; left;
    cbn [step]; by destruct (screen (state m)).
Qed.

(** A signal that is not an answer leaves the hook state as it is. *)
Lemma detail_live_step_state_kept l sig :
  is_settle sig = false -> state (now (live_step l sig)) = state (now l).
Proof.
  destruct sig as [i u|answer|button]; [| done |]; intros _; cbn [live_step].
  - by destruct (truthy i && bool_decide (is_Some u)).
  - destruct button as [i u answer| | |]; [done | | |]; cbn [now step];
      by destruct (screen (state (now l))).
Qed.

Lemma detail_live_step_loading_off l sig :
  loading (state (now l)) = false ->
  loading (state (now (live_step l sig))) = false.
Proof.
  intros Hoff. destruct (is_settle sig) eqn:Hsig.
  - destruct sig as [|answer|]; try done. cbn [live_step].
    destruct (inflight l); [done|].
    pose proof (detail_resume_loading answer (state (now l))) as Hr.
    by destruct (resume answer (state (now l))) as [st effs].
  - by rewrite detail_live_step_state_kept.
Qed.

(** X8.  The detail view shows its loading markup from mount until a read
    settles, and never again.  Issuing a read puts it in flight and leaves
    the hook state alone: as long as no read has settled the state is the
    initial one and the loading flag is true, however many reads are in
    flight and whatever the dependencies and the clicks.  A read in flight
    that settles clears the flag, whatever its answer; and once it is
    cleared no later event (not even a new read) sets it again. *)
Theorem X8_detail_loading_until_a_read_settles
        (l : Live) (before later : list Signal)
        (i : option jsstring) (u : option User.t)
        (answer : Settled VerificationData.t) :
  (truthy i && bool_decide (is_Some u) = true ->
   inflight (live_step l (Deps i u)) = S (inflight l) /\
   state (now (live_step l (Deps i u))) = state (now l)) /\
  (forallb (fun sig => negb (is_settle sig)) before = true ->
   state (now (live_run live_mounted before)) = initial /\
   loading (state (now (live_run live_mounted before))) = true) /\
  (0 < inflight l ->
   loading (state (now (live_step l (Settles answer)))) = false) /\
  (loading (state (now l)) = false ->
   loading (state (now (live_run l later))) = false).
Proof.
  split_and!.
  - intros Hguard. cbn [live_step]. by rewrite Hguard.
  - assert (forall l0,
               forallb (fun sig => negb (is_settle sig)) before = true ->
               state (now (live_run l0 before)) = state (now l0)) as Hkept.
    { induction before as [|sig sigs IH]; intros l0 Hsigs; [done|].
      cbn [forallb] in Hsigs. apply andb_true_iff in Hsigs as [Hsig Hsigs].
      rewrite detail_live_run_cons, IH by done.
      apply detail_live_step_state_kept. by apply negb_true_iff. }
    intros Hb. by rewrite Hkept.
  - intros Hn. cbn [live_step]. destruct (inflight l); [lia|].
    pose proof (detail_resume_loading answer (state (now l))) as Hr.
    by destruct (resume answer (state (now l))) as [st effs].
  - revert l. induction later as [|sig sigs IH]; intros l Hoff; [done|].
    rewrite detail_live_run_cons. apply IH. by apply detail_live_step_loading_off.
Qed.

End DetailViewInFlight.

(** The read for a1 is in flight: the view is loading.  It settles with the
    record: the view is not loading any more. *)
Lemma X8_detail_loading_until_a_read_settles_witness :
  let before := [ReportDetails.Deps (Some (lit "a1")) (Some TestHost.alice);
                 ReportDetails.Clicks ReportDetails.ClickBack] in
  let l := ReportDetails.live_run (H := TestHost.host)
             ReportDetails.live_mounted before in
  ReportDetails.inflight l = 1 /\
  ReportDetails.loading (ReportDetails.state (ReportDetails.now l)) = true /\
  ReportDetails.loading
    (ReportDetails.state
       (ReportDetails.now
          (ReportDetails.live_step (H := TestHost.host) l
             (ReportDetails.Settles (TestHost.ok TestHost.a1))))) = false.
Proof.
  intros before l.
  destruct (X8_detail_loading_until_a_read_settles (H := TestHost.host)
              l before [] None None (TestHost.ok TestHost.a1))
    as (_ & Hloading & Hsettled & _).
  split; [reflexivity|].
  split; [exact (proj2 (Hloading eq_refl)) | apply Hsettled; cbn; lia].
Defined.
